(** * Verification of the Auth0 hook [create-workspace-member.js]

    The hook is an [async] JavaScript function run by the identity
    platform after a password change.  It talks to three things it does not
    own: the management client of the [auth0] package, the [fetch] function
    of [node-fetch], and the completion callback [cb] handed in by the
    platform.  The embedding below keeps the code's shape: JavaScript values
    as an inductive type, [await]/[throw]/[try]-[catch] as a state-and-
    exception monad over the state of the outside world, and every call that
    leaves the hook recorded in a trace. *)

From Stdlib Require Import Floats.PrimFloat ZArith.
From stdpp Require Import base option list strings gmap.

Set Default Proof Using "Type".
Set Warnings "-register-all".
Open Scope string_scope.

(** ** JavaScript values *)

Module Js.

(** The values that reach the hook are parsed JSON (responses of the
    management API and of the HTTP endpoints) plus [undefined], which is
    what reading a missing property gives.  Numbers are IEEE doubles.
    Objects keep their properties in insertion order. *)
Inductive Value : Type :=
| Undefined
| Null
| Bool (b : bool)
| Num (n : float)
| Str (s : string)
| Arr (elems : list Value)
| Obj (props : list (string * Value)).

(** What a [throw] (or a rejected promise) carries. *)
Inductive Thrown : Type :=
| Error (message : string)      (* new Error(message) *)
| TypeError                      (* raised by the engine, message unspecified *)
| Rejection (reason : Value).    (* anything else the outside world throws *)

(** Result of evaluating a statement or awaiting a promise. *)
Inductive Completion (A : Type) : Type :=
| Normal (a : A)
| Throw (e : Thrown).
Arguments Normal {A} a.
Arguments Throw {A} e.

(** ECMAScript ToBoolean: the falsy values are [undefined], [null],
    [false], [+0], [-0], [NaN] and the empty string. *)
Definition ToBoolean (v : Value) : bool :=
  match v with
  | Undefined | Null => false
  | Bool b => b
  | Num n => negb (PrimFloat.is_zero n || PrimFloat.is_nan n)
  | Str s => negb (String.eqb s "")
  | Arr _ | Obj _ => true
  end.

Fixpoint lookup_prop (k : string) (props : list (string * Value)) : Value :=
  match props with
  | [] => Undefined
  | (k', v) :: rest => if String.eqb k k' then v else lookup_prop k rest
  end.

(** Property read [v.k] on a value that is neither [null] nor [undefined].
    Only the names [app_metadata], [isUserInvite], [workspaceId] and
    [access_token] are ever read by the hook; none of them is a property of
    an array, of a boxed primitive or of a built-in prototype, so anything
    but a plain object answers [undefined]. *)
Definition Get (v : Value) (k : string) : Value :=
  match v with
  | Obj props => lookup_prop k props
  | _ => Undefined
  end.

(** [null] and [undefined] cannot be destructured or dereferenced. *)
Definition nullish (v : Value) : bool :=
  match v with
  | Undefined | Null => true
  | _ => false
  end.

Section ToString.
(** Number-to-string conversion is the engine's; it is left open. *)
Variable Number_toString : float -> string.

(** [Array.prototype.join] on strings. *)
Definition join (sep : string) (parts : list string) : string :=
  match parts with
  | [] => ""
  | p :: ps => fold_left (fun acc q => acc +:+ sep +:+ q) ps p
  end.

(** Whether an object has an own property named [k]. *)
Definition has_own (k : string) (props : list (string * Value)) : bool :=
  existsb (fun p => String.eqb k (fst p)) props.

(** ECMAScript ToString, as applied by a template literal.  A plain object
    is converted by the [toString] it inherits, which answers
    ["[object Object]"].  An own [toString] property hides the inherited
    one; in parsed JSON its value is never a function, [valueOf] gives the
    object back, and the conversion throws a [TypeError].  An array joins
    the conversions of its elements with commas, [null] and [undefined]
    elements giving the empty string, and throws when an element does. *)
Fixpoint ToString (v : Value) : Completion string :=
  match v with
  | Undefined => Normal "undefined"
  | Null => Normal "null"
  | Bool true => Normal "true"
  | Bool false => Normal "false"
  | Num n => Normal (Number_toString n)
  | Str s => Normal s
  | Arr elems =>
      let fix parts (l : list Value) : Completion (list string) :=
        match l with
        | [] => Normal []
        | e :: rest =>
            match (if nullish e then Normal "" else ToString e) with
            | Throw t => Throw t
            | Normal s =>
                match parts rest with
                | Throw t => Throw t
                | Normal ss => Normal (s :: ss)
                end
            end
        end in
      match parts elems with
      | Throw t => Throw t
      | Normal ss => Normal (join "," ss)
      end
  | Obj props =>
      if has_own "toString" props then Throw TypeError
      else Normal "[object Object]"
  end.
End ToString.

(** The string of a conversion that completed. *)
Definition text (c : Completion string) : string :=
  match c with
  | Normal s => s
  | Throw _ => ""
  end.

End Js.
Import Js.

(** ** The hook's inputs *)

(** [context.webtask.secrets]: the configuration strings set in the hooks
    editor. *)
Record Secrets : Type := {
  AUTH0_DOMAIN : string;
  ACCOUNT_CLIENT_ID : string;
  ACCOUNT_CLIENT_SECRET : string;
  CREATE_WORKSPACE_MEMBER_CLIENT_ID : string;
  CREATE_WORKSPACE_MEMBER_CLIENT_SECRET : string;
  AUDIENCE : string;
  TOKEN_ENDPOINT : string
}.

Record Webtask : Type := { secrets : Secrets }.
Record Context : Type := { webtask : Webtask }.

(** The [user] argument, with the fields its JSDoc declares. *)
Module User.
Record t : Type := {
  id : string;
  username : string;
  email : string;
  last_password_reset : string
}.
End User.

(** ** What the hook calls *)

(** Second argument of [fetch]. *)
Record RequestInit : Type := {
  method : string;
  headers : list (string * string);
  body : string
}.

(** A [node-fetch] response.  [json] is what the promise returned by
    [res.json()] settles to. *)
Record Response : Type := {
  status : Z;
  json : Completion Value
}.

(** [res.ok], as [node-fetch] defines it: the status is in 200..299. *)
Definition ok (res : Response) : bool :=
  ((200 <=? status res) && (status res <? 300))%Z.

(** Options object given to [new auth0.ManagementClient]. *)
Record ClientOptions : Type := {
  domain : string;
  clientId : string;
  clientSecret : string
}.

(** A management client, which remembers what it was built with. *)
Record ManagementClient : Type := { options : ClientOptions }.

(** One entry per call that leaves the hook: the two management-API calls,
    the HTTP requests, and the invocation of the completion callback
    ([EvCb None] is [cb()], [EvCb (Some err)] is [cb(err)]). *)
Inductive Event : Type :=
| EvGetUser (id : string)
| EvUpdateAppMetadata (id : string) (metadata : Value)
| EvFetch (url : string) (init : RequestInit)
| EvCb (err : option Thrown).

(** Invocations of [cb]. *)
Definition is_callback (e : Event) : bool :=
  match e with
  | EvCb _ => true
  | _ => false
  end.

(** Calls of [updateAppMetadata]. *)
Definition is_update (e : Event) : bool :=
  match e with
  | EvUpdateAppMetadata _ _ => true
  | _ => false
  end.

(** The calls that go over the network. *)
Definition outbound (e : Event) : bool := negb (is_callback e).

(** The packages and built-ins the hook relies on, over an arbitrary state
    [W] of the outside world.  Every call may answer or throw, and may
    change the world. *)
Record Host (W : Type) : Type := {
  new_ManagementClient : ClientOptions -> W -> Completion ManagementClient * W;
  getUser : ManagementClient -> string -> W -> Completion Value * W;
  updateAppMetadata :
    ManagementClient -> string -> Value -> W -> Completion Value * W;
  fetch : string -> RequestInit -> W -> Completion Response * W;
  JSON_stringify : Value -> string;
  Number_toString : float -> string
}.
Arguments new_ManagementClient {W} _ _ _.
Arguments getUser {W} _ _ _ _.
Arguments updateAppMetadata {W} _ _ _ _ _.
Arguments fetch {W} _ _ _ _.
Arguments JSON_stringify {W} _ _.
Arguments Number_toString {W} _ _.

(** The completion callback [cb] supplied by the platform. *)
Definition Callback (W : Type) : Type :=
  option Thrown -> W -> Completion Value * W.

(** ** The monad of an [async] function body *)

(** State threaded through a run: the outside world and the trace so far.
    A computation either completes normally or throws. *)
Definition M (W A : Type) : Type :=
  W * list Event -> Completion A * (W * list Event).

Section Monad.
Context {W : Type}.

Definition ret {A} (a : A) : M W A := fun st => (Normal a, st).

Definition bind {A B} (m : M W A) (k : A -> M W B) : M W B :=
  fun st =>
    match m st with
    | (Normal a, st') => k a st'
    | (Throw e, st') => (Throw e, st')
    end.

(** [throw e] *)
Definition throw {A} (e : Thrown) : M W A := fun st => (Throw e, st).

(** [try { body } catch (err) { handler }] *)
Definition try_catch {A} (body : M W A) (handler : Thrown -> M W A) : M W A :=
  fun st =>
    match body st with
    | (Normal a, st') => (Normal a, st')
    | (Throw e, st') => handler e st'
    end.

(** A call that is not recorded (building the client). *)
Definition local {A} (f : W -> Completion A * W) : M W A :=
  fun st =>
    match f (fst st) with
    | (r, w') => (r, (w', snd st))
    end.

(** A recorded call: the event is appended when the call is made. *)
Definition perform {A} (ev : Event) (f : W -> Completion A * W) : M W A :=
  fun st =>
    match f (fst st) with
    | (r, w') => (r, (w', (snd st ++ [ev])%list))
    end.

(** [await p] for a promise whose outcome is already fixed. *)
Definition await {A} (p : Completion A) : M W A := fun st => (p, st).

(** An expression that evaluates without a call: its completion becomes
    the completion of the computation. *)
Definition eval {A} (c : Completion A) : M W A := fun st => (c, st).

(** [const { k } = v] *)
Definition destructure (v : Value) (k : string) : M W Value :=
  if nullish v then throw TypeError else ret (Get v k).

(** [const { k = dflt } = v]: the default replaces [undefined] only. *)
Definition destructure_default (v : Value) (k : string) (dflt : Value)
  : M W Value :=
  if nullish v then throw TypeError
  else ret (match Get v k with Undefined => dflt | x => x end).

(** [v.k] *)
Definition member (v : Value) (k : string) : M W Value :=
  if nullish v then throw TypeError else ret (Get v k).
End Monad.

#[global] Instance M_ret {W} : MRet (M W) := fun A => @ret W A.
#[global] Instance M_bind {W} : MBind (M W) := fun A B k m => @bind W A B m k.

(** ** The hook *)

Section Hook.
Context {W : Type}.
Variable host : Host W.

(** The [options] of [_getToken], lines 32-43. *)
Definition _getToken_options (secrets : Secrets) : RequestInit := {|
  method := "POST";
  headers := [("content-type", "application/json")];
  body := JSON_stringify host (Obj [
    ("client_id", Str (CREATE_WORKSPACE_MEMBER_CLIENT_ID secrets));
    ("client_secret", Str (CREATE_WORKSPACE_MEMBER_CLIENT_SECRET secrets));
    ("audience", Str (AUDIENCE secrets));
    ("grant_type", Str "client_credentials")])
|}.

(** [_getToken], lines 31-52. *)
Definition _getToken (secrets : Secrets) : M W Value :=
  let options := _getToken_options secrets in
  res ← perform (EvFetch (TOKEN_ENDPOINT secrets) options)
                 (fetch host (TOKEN_ENDPOINT secrets) options);
  if negb (ok res) then throw (Error "Failed to fetch token")
  else
    parsed ← await (json res);
    access_token ← destructure parsed "access_token";
    mret access_token.

(** The [url] of [_createMember], line 65, for a [workspaceId] whose
    conversion to a string completes. *)
Definition _createMember_url (workspaceId : Value) : string :=
  "https://api.upstand.fm/workspaces/"
  +:+ text (ToString (Number_toString host) workspaceId) +:+ "/members".

(** The [options] of [_createMember], lines 66-77, for a [token] whose
    conversion to a string completes. *)
Definition _createMember_options (token : Value) (userId email : string)
  : RequestInit := {|
  method := "POST";
  headers := [
    ("content-type", "application/json");
    ("Authorization",
     "Bearer " +:+ text (ToString (Number_toString host) token))];
  body := JSON_stringify host (Obj [
    ("userId", Str userId);
    ("email", Str email);
    ("fullName", Str "User")])
|}.

(** [_createMember], lines 64-85.  The template literals of lines 65 and 70
    convert [workspaceId] and [token] before anything is sent; a conversion
    that throws ends the function there. *)
Definition _createMember (token workspaceId : Value) (userId email : string)
  : M W Value :=
  _ ← eval (ToString (Number_toString host) workspaceId);
  let url := _createMember_url workspaceId in
  _ ← eval (ToString (Number_toString host) token);
  let options := _createMember_options token userId email in
  res ← perform (EvFetch url options) (fetch host url options);
  if negb (ok res) then throw (Error "Failed to create workspace member")
  else await (json res).

(** The options given to the management client, lines 123-127. *)
Definition managementClient_options (secrets : Secrets) : ClientOptions := {|
  domain := AUTH0_DOMAIN secrets;
  clientId := ACCOUNT_CLIENT_ID secrets;
  clientSecret := ACCOUNT_CLIENT_SECRET secrets
|}.

(** [userId], line 129. *)
Definition userId (user : User.t) : string := "auth0|" +:+ User.id user.

(** The object literal of lines 154-157. *)
Definition newAppMetadata : Value :=
  Obj [("isUserInvite", Bool false); ("inviteMsg", Str "")].

(** [cb(...)]: the value the callback returns is dropped. *)
Definition invoke (cb : Callback W) (err : option Thrown) : M W unit :=
  _ ← perform (EvCb err) (cb err);
  mret tt.

(** The [try] block, lines 110-163. *)
Definition try_block (user : User.t) (context : Context) (cb : Callback W)
  : M W unit :=
  let secrets := secrets (webtask context) in
  managementClient ←
    local (new_ManagementClient host (managementClient_options secrets));
  let userId := userId user in
  fetched ← perform (EvGetUser userId) (getUser host managementClient userId);
  app_metadata ← destructure_default fetched "app_metadata" (Obj []);
  isUserInvite ← member app_metadata "isUserInvite";
  if negb (ToBoolean isUserInvite) then mret tt
  else
    token ← _getToken secrets;
    workspaceId ← member app_metadata "workspaceId";
    _ ← _createMember token workspaceId userId (User.email user);
    _ ← perform (EvUpdateAppMetadata userId newAppMetadata)
                 (updateAppMetadata host managementClient userId newAppMetadata);
    invoke cb None.

(** [createWorkspaceMember], lines 108-167.  The result is how the promise
    returned by the [async] function settles. *)
Definition createWorkspaceMember (user : User.t) (context : Context)
    (cb : Callback W) : M W unit :=
  try_catch (try_block user context cb) (fun err => invoke cb (Some err)).

(** One invocation of the hook in world [w], starting with an empty
    trace. *)
Definition run_hook (user : User.t) (context : Context) (cb : Callback W)
    (w : W) : Completion unit * (W * list Event) :=
  createWorkspaceMember user context cb (w, []).
End Hook.

Arguments userId : simpl never.
Arguments newAppMetadata : simpl never.
Arguments managementClient_options : simpl never.
Arguments _getToken_options : simpl never.
Arguments _createMember_url : simpl never.
Arguments _createMember_options : simpl never.

(** The trace of a finished run. *)
Definition trace_of {W A} (r : Completion A * (W * list Event)) : list Event :=
  snd (snd r).

(** [app_metadata] as line 133 binds it, given the value [getUser] resolved
    with. *)
Definition app_metadata_of (fetched : Value) : Value :=
  match Get fetched "app_metadata" with
  | Undefined => Obj []
  | x => x
  end.

(** ** Steps of the hook, for statements about where a run fails *)

Section Steps.
Context {W : Type}.
Variable host : Host W.

(** Lines 110-140: build the client, read the user, take [app_metadata]
    (defaulting to an empty object) and its [isUserInvite]. *)
Definition read_metadata (user : User.t) (context : Context)
  : M W (ManagementClient * Value * Value) :=
  managementClient ←
    local (new_ManagementClient host
             (managementClient_options (secrets (webtask context))));
  fetched ← perform (EvGetUser (userId user))
                     (getUser host managementClient (userId user));
  app_metadata ← destructure_default fetched "app_metadata" (Obj []);
  isUserInvite ← member app_metadata "isUserInvite";
  mret (managementClient, app_metadata, isUserInvite).

(** Line 161. *)
Definition replace_metadata (managementClient : ManagementClient)
    (user : User.t) : M W Value :=
  perform (EvUpdateAppMetadata (userId user) newAppMetadata)
          (updateAppMetadata host managementClient (userId user) newAppMetadata).

(** Lines 144-163: the three provisioning steps and the final [cb()]. *)
Definition provision (user : User.t) (context : Context) (cb : Callback W)
    (managementClient : ManagementClient) (app_metadata : Value) : M W unit :=
  token ← _getToken host (secrets (webtask context));
  _ ← _createMember host token (Get app_metadata "workspaceId")
                    (userId user) (User.email user);
  _ ← replace_metadata managementClient user;
  invoke cb None.

(** [step_raises user context st0 e st]: started in [st0], the hook reaches
    one of its four steps with every earlier step completed, and that step
    throws [e], leaving state [st]. *)
Inductive step_raises (user : User.t) (context : Context)
    (st0 : W * list Event) (e : Thrown) (st : W * list Event) : Prop :=
| raises_read :
    read_metadata user context st0 = (Throw e, st) ->
    step_raises user context st0 e st
| raises_token c md flag st1 :
    read_metadata user context st0 = (Normal (c, md, flag), st1) ->
    ToBoolean flag = true ->
    _getToken host (secrets (webtask context)) st1 = (Throw e, st) ->
    step_raises user context st0 e st
| raises_member c md flag st1 token st2 :
    read_metadata user context st0 = (Normal (c, md, flag), st1) ->
    ToBoolean flag = true ->
    _getToken host (secrets (webtask context)) st1 = (Normal token, st2) ->
    _createMember host token (Get md "workspaceId") (userId user)
                  (User.email user) st2 = (Throw e, st) ->
    step_raises user context st0 e st
| raises_update c md flag st1 token st2 member st3 :
    read_metadata user context st0 = (Normal (c, md, flag), st1) ->
    ToBoolean flag = true ->
    _getToken host (secrets (webtask context)) st1 = (Normal token, st2) ->
    _createMember host token (Get md "workspaceId") (userId user)
                  (User.email user) st2 = (Normal member, st3) ->
    replace_metadata c user st3 = (Throw e, st) ->
    step_raises user context st0 e st.
End Steps.

(** ** The user records kept by the identity provider *)

(** The hook's only write access to a user's stored metadata is
    [updateAppMetadata].  How the provider combines the stored object with
    the object it is sent is the provider's business, so it is a
    parameter. *)
Section Store.
Variable patch : Value -> Value -> Value.

Definition store_step (s : gmap string Value) (e : Event)
  : gmap string Value :=
  match e with
  | EvUpdateAppMetadata id metadata =>
      <[id := patch (default (Obj []) (s !! id)) metadata]> s
  | _ => s
  end.

(** The stored metadata once the calls of a trace have been served. *)
Definition store_after (s : gmap string Value) (tr : list Event)
  : gmap string Value :=
  fold_left store_step tr s.
End Store.

(** Sending an object replaces the stored one. *)
Definition patch_replace (old new : Value) : Value := new.

(** ** A scripted outside world, for concrete runs *)

Module Demo.

Definition config : Secrets := {|
  AUTH0_DOMAIN := "upstandfm.eu.auth0.com";
  ACCOUNT_CLIENT_ID := "account-client";
  ACCOUNT_CLIENT_SECRET := "account-secret";
  CREATE_WORKSPACE_MEMBER_CLIENT_ID := "member-client";
  CREATE_WORKSPACE_MEMBER_CLIENT_SECRET := "member-secret";
  AUDIENCE := "https://api.upstand.fm";
  TOKEN_ENDPOINT := "https://upstandfm.eu.auth0.com/oauth/token"
|}.

Definition context : Context := {| webtask := {| secrets := config |} |}.

Definition user : User.t := {|
  User.id := "abc123";
  User.username := "jane";
  User.email := "jane@example.com";
  User.last_password_reset := "2020-03-01T10:00:00.000Z"
|}.

(** What each kind of call answers. *)
Record Script : Type := {
  user_record : Completion Value;
  token_response : Completion Response;
  member_response : Completion Response;
  update_result : Completion Value
}.

Definition dquote : string := String (Ascii.ascii_of_nat 34) EmptyString.

Definition quote (s : string) : string := dquote +:+ s +:+ dquote.

Definition stringify_prop (p : string * Value) : string :=
  quote (fst p) +:+ ":" +:+
  match snd p with
  | Str s => quote s
  | _ => "null"
  end.

(** Stand-in for [JSON.stringify], enough for the flat objects of plain
    strings that the hook serialises. *)
Definition stringify (v : Value) : string :=
  match v with
  | Obj props => "{" +:+ join "," (List.map stringify_prop props) +:+ "}"
  | Str s => quote s
  | _ => "null"
  end.

(** No run below puts a number into a template literal, so the scripted
    world answers the number-to-string conversion for zero only. *)
Definition number_toString (n : float) : string :=
  if PrimFloat.is_zero n then "0" else "NaN".

(** The world is the number of calls answered so far. *)
Definition host (s : Script) : Host nat := {|
  new_ManagementClient o w := (Normal {| options := o |}, S w);
  getUser _ _ w := (user_record s, S w);
  updateAppMetadata _ _ _ w := (update_result s, S w);
  fetch url _ w :=
    (if String.eqb url (TOKEN_ENDPOINT config)
     then token_response s else member_response s, S w);
  JSON_stringify := stringify;
  Number_toString := number_toString
|}.

Definition cb : Callback nat := fun _ w => (Normal Undefined, S w).

Definition client : ManagementClient :=
  {| options := managementClient_options config |}.

Definition response (st : Z) (v : Value) : Response :=
  {| status := st; json := Normal v |}.

(** A user record as the management API returns it. *)
Definition record_with (metadata : Value) : Value :=
  Obj [("user_id", Str "auth0|abc123");
       ("email", Str "jane@example.com");
       ("app_metadata", metadata)].

Definition invite (flag : Value) : Value :=
  Obj [("isUserInvite", flag);
       ("workspaceId", Str "ws1");
       ("inviteMsg", Str "Welcome")].

Definition token_body : Value :=
  Obj [("access_token", Str "tok"); ("token_type", Str "Bearer")].

Definition created_member : Value :=
  Obj [("userId", Str "auth0|abc123");
       ("email", Str "jane@example.com");
       ("fullName", Str "User")].

(** Every call succeeds and the user was invited. *)
Definition happy : Script := {|
  user_record := Normal (record_with (invite (Bool true)));
  token_response := Normal (response 200 token_body);
  member_response := Normal (response 201 created_member);
  update_result := Normal (Obj [])
|}.

Definition with_user (fetched : Value) (s : Script) : Script := {|
  user_record := Normal fetched;
  token_response := token_response s;
  member_response := member_response s;
  update_result := update_result s
|}.

Definition with_token (res : Response) (s : Script) : Script := {|
  user_record := user_record s;
  token_response := Normal res;
  member_response := member_response s;
  update_result := update_result s
|}.

Definition with_member (res : Response) (s : Script) : Script := {|
  user_record := user_record s;
  token_response := token_response s;
  member_response := Normal res;
  update_result := update_result s
|}.

Definition run (s : Script) : Completion unit * (nat * list Event) :=
  run_hook (host s) user context cb 0.

End Demo.

(** ** Scripted answers that go wrong *)

Module Faults.

(** A callback that throws when it is told of success, and accepts an
    error. *)
Definition cb_rejecting_success : Callback nat :=
  fun err w =>
    match err with
    | None => (Throw (Error "callback failed"), S w)
    | Some _ => (Normal Undefined, S w)
    end.

(** A callback that always throws. *)
Definition cb_throwing : Callback nat :=
  fun _ w => (Throw (Error "callback failed"), S w).

(** A response whose body is not JSON: [res.json()] rejects. *)
Definition unparsable (st : Z) : Response :=
  {| status := st; json := Throw (Error "invalid json response body") |}.

(** A world in which [new auth0.ManagementClient] throws. *)
Definition host_without_client (s : Demo.Script) : Host nat := {|
  new_ManagementClient _ w := (Throw (Error "Must provide a domain"), S w);
  getUser := getUser (Demo.host s);
  updateAppMetadata := updateAppMetadata (Demo.host s);
  fetch := fetch (Demo.host s);
  JSON_stringify := Demo.stringify;
  Number_toString := Demo.number_toString
|}.

End Faults.

(** * Properties *)

(** ** Running the monad *)

Ltac unfold_monad :=
  unfold destructure, destructure_default, member in *;
  unfold mbind, mret, M_bind, M_ret, bind, ret, throw, try_catch, local,
    perform, await, eval in *.

Ltac unfold_hook :=
  unfold run_hook, createWorkspaceMember, try_block, provision, read_metadata,
    replace_metadata, _getToken, _createMember, invoke, trace_of in *;
  unfold_monad.

(** Splits on the next answer of the outside world, or on the next test
    the code makes. *)
Ltac case_next :=
  match goal with
  | |- context [new_ManagementClient ?h ?o ?w] =>
      destruct (new_ManagementClient h o w) as [[?c|?e] ?w] eqn:?
  | |- context [getUser ?h ?c ?i ?w] =>
      destruct (getUser h c i w) as [[?u|?e] ?w] eqn:?
  | |- context [fetch ?h ?u ?o ?w] =>
      destruct (fetch h u o w) as [[?res|?e] ?w] eqn:?
  | |- context [updateAppMetadata ?h ?c ?i ?m ?w] =>
      destruct (updateAppMetadata h c i m w) as [[?x|?e] ?w] eqn:?
  | |- context [nullish ?v] => destruct (nullish v) eqn:?
  | |- context [ToBoolean ?v] => destruct (ToBoolean v) eqn:?
  | |- context [ToString ?f ?v] => destruct (ToString f v) as [?s|?e] eqn:?
  | |- context [ok ?r] => destruct (ok r) eqn:?
  | |- context [json ?r] => destruct (json r) as [?j|?e] eqn:?
  | |- context [match ?cb ?a ?w with _ => _ end] =>
      destruct (cb a w) as [[?v|?e] ?w] eqn:?
  end; simpl in *.

Section Running.
Context {W : Type}.
Variable host : Host W.

Lemma bind_normal {A B} (m : M W A) (k : A -> M W B) st a st' :
  m st = (Normal a, st') -> (x ← m; k x) st = k a st'.
Proof. unfold_monad. intros ->. reflexivity. Qed.

Lemma bind_throw {A B} (m : M W A) (k : A -> M W B) st e st' :
  m st = (Throw e, st') -> (x ← m; k x) st = (Throw e, st').
Proof. unfold_monad. intros ->. reflexivity. Qed.

Lemma app_metadata_of_default (v : Value) :
  (match Get v "app_metadata" with Undefined => Obj [] | x => x end)
  = app_metadata_of v.
Proof. reflexivity. Qed.

(** What the read step returns when the client is built and the user is
    found. *)
Lemma read_metadata_normal user context w0 tr c w1 fetched w2 :
  new_ManagementClient host
    (managementClient_options (secrets (webtask context))) w0
    = (Normal c, w1) ->
  getUser host c (userId user) w1 = (Normal fetched, w2) ->
  nullish fetched = false ->
  nullish (app_metadata_of fetched) = false ->
  read_metadata host user context (w0, tr)
  = (Normal (c, app_metadata_of fetched,
             Get (app_metadata_of fetched) "isUserInvite"),
     (w2, (tr ++ [EvGetUser (userId user)])%list)).
Proof.
  intros Hc Hu Hn Hm. unfold_hook. simpl. rewrite Hc. simpl.
  rewrite Hu, Hn. simpl. rewrite app_metadata_of_default, Hm. reflexivity.
Qed.

Lemma read_metadata_inv user context st :
  match read_metadata host user context st with
  | (Normal (_, md, flag), _) =>
      nullish md = false /\ flag = Get md "isUserInvite"
  | (Throw _, _) => True
  end.
Proof. destruct st as [w tr]. unfold_hook. simpl. repeat case_next; auto. Qed.

(** The read step only ever completes with metadata that can be
    dereferenced. *)
Lemma read_metadata_not_nullish user context st c md flag st1 :
  read_metadata host user context st = (Normal (c, md, flag), st1) ->
  nullish md = false /\ flag = Get md "isUserInvite".
Proof.
  intros H. pose proof (read_metadata_inv user context st) as Hinv.
  rewrite H in Hinv. exact Hinv.
Qed.

(** The [try] block is the read step followed, for a truthy flag, by the
    three provisioning steps and [cb()]. *)
Lemma try_block_steps user context cb st :
  try_block host user context cb st
  = match read_metadata host user context st with
    | (Normal (c, md, flag), st1) =>
        if negb (ToBoolean flag) then (Normal tt, st1)
        else
          (token ← _getToken host (secrets (webtask context));
           _ ← _createMember host token (Get md "workspaceId")
                             (userId user) (User.email user);
           _ ← replace_metadata host c user;
           invoke cb None) st1
    | (Throw e, st1) => (Throw e, st1)
    end.
Proof.
  destruct st as [w tr]. unfold try_block, read_metadata. unfold_monad. simpl.
  repeat case_next; try reflexivity.
Qed.
End Running.

(** ** The two HTTP helpers *)

Section Helpers.
Context {W : Type}.
Variable host : Host W.

Lemma _getToken_normal secrets w tr res w' parsed :
  fetch host (TOKEN_ENDPOINT secrets) (_getToken_options host secrets) w
    = (Normal res, w') ->
  ok res = true ->
  json res = Normal parsed ->
  nullish parsed = false ->
  _getToken host secrets (w, tr)
  = (Normal (Get parsed "access_token"),
     (w', (tr ++ [EvFetch (TOKEN_ENDPOINT secrets)
                          (_getToken_options host secrets)])%list)).
Proof.
  intros Hf Hok Hj Hn. unfold_hook. simpl.
  rewrite Hf. simpl. rewrite Hok. simpl. rewrite Hj, Hn. reflexivity.
Qed.

Lemma _getToken_not_ok secrets w tr res w' :
  fetch host (TOKEN_ENDPOINT secrets) (_getToken_options host secrets) w
    = (Normal res, w') ->
  ok res = false ->
  _getToken host secrets (w, tr)
  = (Throw (Error "Failed to fetch token"),
     (w', (tr ++ [EvFetch (TOKEN_ENDPOINT secrets)
                          (_getToken_options host secrets)])%list)).
Proof.
  intros Hf Hok. unfold_hook. simpl. rewrite Hf. simpl. rewrite Hok.
  reflexivity.
Qed.

(** Whatever happens, [_getToken] makes its one request and nothing
    else. *)
Lemma _getToken_trace secrets st :
  trace_of (_getToken host secrets st)
  = (snd st ++ [EvFetch (TOKEN_ENDPOINT secrets)
                        (_getToken_options host secrets)])%list.
Proof.
  destruct st as [w tr]. unfold_hook. simpl. repeat case_next; reflexivity.
Qed.

Lemma _createMember_url_text workspaceId wsText :
  ToString (Number_toString host) workspaceId = Normal wsText ->
  _createMember_url host workspaceId
  = "https://api.upstand.fm/workspaces/" +:+ wsText +:+ "/members".
Proof. intros H. unfold _createMember_url. rewrite H. reflexivity. Qed.

Lemma _createMember_options_text token uid email tokenText :
  ToString (Number_toString host) token = Normal tokenText ->
  _createMember_options host token uid email
  = {| method := "POST";
       headers := [("content-type", "application/json");
                   ("Authorization", "Bearer " +:+ tokenText)];
       body := JSON_stringify host (Obj [("userId", Str uid);
                                         ("email", Str email);
                                         ("fullName", Str "User")]) |}.
Proof. intros H. unfold _createMember_options. rewrite H. reflexivity. Qed.

Lemma _createMember_normal token workspaceId uid email w tr res w' created
    wsText tokenText :
  ToString (Number_toString host) workspaceId = Normal wsText ->
  ToString (Number_toString host) token = Normal tokenText ->
  fetch host (_createMember_url host workspaceId)
        (_createMember_options host token uid email) w = (Normal res, w') ->
  ok res = true ->
  json res = Normal created ->
  _createMember host token workspaceId uid email (w, tr)
  = (Normal created,
     (w', (tr ++ [EvFetch (_createMember_url host workspaceId)
                          (_createMember_options host token uid email)])%list)).
Proof.
  intros Hws Htk Hf Hok Hj. unfold_hook. simpl. rewrite Hws, Htk, Hf. simpl.
  rewrite Hok. simpl. rewrite Hj. reflexivity.
Qed.

Lemma _createMember_not_ok token workspaceId uid email w tr res w'
    wsText tokenText :
  ToString (Number_toString host) workspaceId = Normal wsText ->
  ToString (Number_toString host) token = Normal tokenText ->
  fetch host (_createMember_url host workspaceId)
        (_createMember_options host token uid email) w = (Normal res, w') ->
  ok res = false ->
  _createMember host token workspaceId uid email (w, tr)
  = (Throw (Error "Failed to create workspace member"),
     (w', (tr ++ [EvFetch (_createMember_url host workspaceId)
                          (_createMember_options host token uid email)])%list)).
Proof.
  intros Hws Htk Hf Hok. unfold_hook. simpl. rewrite Hws, Htk, Hf. simpl.
  rewrite Hok. reflexivity.
Qed.

(** A [workspaceId] or a [token] that cannot be converted ends
    [_createMember] before the request. *)
Lemma _createMember_unconvertible token workspaceId uid email st e :
  ToString (Number_toString host) workspaceId = Throw e
  \/ ((exists wsText,
         ToString (Number_toString host) workspaceId = Normal wsText)
      /\ ToString (Number_toString host) token = Throw e) ->
  _createMember host token workspaceId uid email st = (Throw e, st).
Proof.
  intros [Hws | [[wsText Hws] Htk]]; unfold_hook; simpl; rewrite Hws;
    [reflexivity|]. rewrite Htk. reflexivity.
Qed.

(** [_createMember] makes its one request, or none when a conversion
    throws. *)
Lemma _createMember_trace token workspaceId uid email st :
  let tr' := trace_of (_createMember host token workspaceId uid email st) in
  tr' = snd st
  \/ tr' = (snd st ++ [EvFetch (_createMember_url host workspaceId)
                               (_createMember_options host token uid email)])%list.
Proof.
  destruct st as [w tr]. unfold_hook. simpl. repeat case_next; auto.
Qed.

(** When it completes, it has made the request. *)
Lemma _createMember_normal_trace token workspaceId uid email st r st1 :
  _createMember host token workspaceId uid email st = (Normal r, st1) ->
  snd st1 = (snd st ++ [EvFetch (_createMember_url host workspaceId)
                                (_createMember_options host token uid email)])%list.
Proof.
  destruct st as [w tr]. intros H.
  assert (match _createMember host token workspaceId uid email (w, tr) with
          | (Normal _, st') =>
              snd st' = (tr ++ [EvFetch (_createMember_url host workspaceId)
                                        (_createMember_options host token uid
                                                               email)])%list
          | _ => True
          end) as Hm.
  { clear H. unfold_hook. simpl. repeat case_next; auto. }
  rewrite H in Hm. exact Hm.
Qed.

Lemma replace_metadata_trace c user st :
  trace_of (replace_metadata host c user st)
  = (snd st ++ [EvUpdateAppMetadata (userId user) newAppMetadata])%list.
Proof.
  destruct st as [w tr]. unfold_hook. simpl. repeat case_next; reflexivity.
Qed.

(** The read step makes at most the one [getUser] call. *)
Lemma read_metadata_trace user context st :
  let tr' := trace_of (read_metadata host user context st) in
  tr' = snd st \/ tr' = (snd st ++ [EvGetUser (userId user)])%list.
Proof.
  destruct st as [w tr]. unfold_hook. simpl. repeat case_next; auto.
Qed.

(** A read step that completes has made the call. *)
Lemma read_metadata_normal_trace user context st r st1 :
  read_metadata host user context st = (Normal r, st1) ->
  snd st1 = (snd st ++ [EvGetUser (userId user)])%list.
Proof.
  destruct st as [w tr]. intros H.
  assert (match read_metadata host user context (w, tr) with
          | (Normal _, st') =>
              snd st' = (tr ++ [EvGetUser (userId user)])%list
          | _ => True
          end) as Hm.
  { clear H. unfold_hook. simpl. repeat case_next; auto. }
  rewrite H in Hm. exact Hm.
Qed.
End Helpers.

(** ** Reading the invite flag *)

Lemma Get_not_undefined_obj v k :
  Get v k <> Undefined -> exists props, v = Obj props.
Proof. destruct v; simpl; try congruence. eauto. Qed.

(** A record whose metadata carries a flag other than [undefined] passes
    both destructurings. *)
Lemma flag_present fetched flag :
  Get (Get fetched "app_metadata") "isUserInvite" = flag ->
  flag <> Undefined ->
  nullish fetched = false
  /\ app_metadata_of fetched = Get fetched "app_metadata"
  /\ nullish (app_metadata_of fetched) = false.
Proof.
  intros Hf Hne. subst flag.
  destruct (Get_not_undefined_obj _ _ Hne) as [mprops Hm].
  assert (Hfetched : exists props, fetched = Obj props).
  { apply (Get_not_undefined_obj fetched "app_metadata"). rewrite Hm. congruence. }
  destruct Hfetched as [props ->].
  unfold app_metadata_of. rewrite Hm. auto.
Qed.

(** A property that is not listed reads as [undefined]. *)
Lemma lookup_prop_absent k props :
  (forall v, ~ In (k, v) props) -> lookup_prop k props = Undefined.
Proof.
  induction props as [|[k' v'] rest IH]; intros Habs; [reflexivity|].
  simpl. destruct (String.eqb k k') eqn:Hk.
  - apply String.eqb_eq in Hk. subst k'. exfalso. apply (Habs v'). left.
    reflexivity.
  - apply IH. intros v Hin. apply (Habs v). right. exact Hin.
Qed.

(** ** Whole runs *)

Section Runs.
Context {W : Type}.
Variable host : Host W.
Variables (user : User.t) (context : Context) (cb : Callback W).

Lemma run_hook_steps w :
  run_hook host user context cb w
  = match read_metadata host user context (w, []) with
    | (Normal (c, md, flag), st1) =>
        if negb (ToBoolean flag) then (Normal tt, st1)
        else try_catch (provision host user context cb c md)
                       (fun err => invoke cb (Some err)) st1
    | (Throw e, st1) => invoke cb (Some e) st1
    end.
Proof.
  unfold run_hook, createWorkspaceMember.
  unfold try_catch at 1. rewrite try_block_steps.
  destruct (read_metadata host user context (w, [])) as [[[[c md] flag]|e] st1];
    [|reflexivity].
  destruct (negb (ToBoolean flag)); reflexivity.
Qed.

(** A falsy flag: the hook returns after the read. *)
Lemma hook_noop w0 c w1 fetched w2 :
  new_ManagementClient host
    (managementClient_options (secrets (webtask context))) w0
    = (Normal c, w1) ->
  getUser host c (userId user) w1 = (Normal fetched, w2) ->
  nullish fetched = false ->
  nullish (app_metadata_of fetched) = false ->
  ToBoolean (Get (app_metadata_of fetched) "isUserInvite") = false ->
  run_hook host user context cb w0
  = (Normal tt, (w2, [EvGetUser (userId user)])).
Proof.
  intros Hc Hu Hn Hm Hflag. rewrite run_hook_steps.
  rewrite (read_metadata_normal host user context w0 [] c w1 fetched w2
             Hc Hu Hn Hm).
  rewrite Hflag. reflexivity.
Qed.

(** A truthy flag: the hook goes on with the provisioning steps. *)
Lemma hook_provision w0 c w1 fetched w2 :
  new_ManagementClient host
    (managementClient_options (secrets (webtask context))) w0
    = (Normal c, w1) ->
  getUser host c (userId user) w1 = (Normal fetched, w2) ->
  nullish fetched = false ->
  nullish (app_metadata_of fetched) = false ->
  ToBoolean (Get (app_metadata_of fetched) "isUserInvite") = true ->
  run_hook host user context cb w0
  = try_catch (provision host user context cb c (app_metadata_of fetched))
              (fun err => invoke cb (Some err))
              (w2, [EvGetUser (userId user)]).
Proof.
  intros Hc Hu Hn Hm Hflag. rewrite run_hook_steps.
  rewrite (read_metadata_normal host user context w0 [] c w1 fetched w2
             Hc Hu Hn Hm).
  rewrite Hflag. reflexivity.
Qed.

(** With every call answering, the provisioning steps run to [cb()]. *)
Lemma provision_success c md w2 tr tokenRes w3 tokenBody memberRes w4 created
    updated w5 wsText tokenText :
  let config := secrets (webtask context) in
  fetch host (TOKEN_ENDPOINT config) (_getToken_options host config) w2
    = (Normal tokenRes, w3) ->
  ok tokenRes = true ->
  json tokenRes = Normal tokenBody ->
  nullish tokenBody = false ->
  ToString (Number_toString host) (Get md "workspaceId") = Normal wsText ->
  ToString (Number_toString host) (Get tokenBody "access_token")
    = Normal tokenText ->
  fetch host (_createMember_url host (Get md "workspaceId"))
        (_createMember_options host (Get tokenBody "access_token")
                               (userId user) (User.email user)) w3
    = (Normal memberRes, w4) ->
  ok memberRes = true ->
  json memberRes = Normal created ->
  updateAppMetadata host c (userId user) newAppMetadata w4
    = (Normal updated, w5) ->
  provision host user context cb c md (w2, tr)
  = invoke cb None
      (w5,
       (tr ++ [EvFetch (TOKEN_ENDPOINT config) (_getToken_options host config);
               EvFetch (_createMember_url host (Get md "workspaceId"))
                       (_createMember_options host
                          (Get tokenBody "access_token")
                          (userId user) (User.email user));
               EvUpdateAppMetadata (userId user) newAppMetadata])%list).
Proof.
  intros config Ht Hok Hj Hn Hws Htk Hm Hok' Hj' Hup. unfold provision.
  rewrite (bind_normal _ _ _ _ _
             (_getToken_normal host config w2 tr _ _ _ Ht Hok Hj Hn)).
  rewrite (bind_normal _ _ _ _ _
             (_createMember_normal host _ _ _ _ w3 _ _ _ _ _ _ Hws Htk
                Hm Hok' Hj')).
  unfold replace_metadata at 1. unfold perform at 1.
  unfold mbind, M_bind, bind. simpl. rewrite Hup.
  rewrite <- !app_assoc. reflexivity.
Qed.

(** What the two ways of calling [cb] add to a trace. *)
Lemma invoke_trace err st :
  trace_of (invoke cb err st) = (snd st ++ [EvCb err])%list.
Proof.
  destruct st as [w tr]. unfold_hook. simpl.
  destruct (cb err w) as [[v|e] w']; reflexivity.
Qed.

(** Every run leaves one of eight traces. *)
Lemma trace_shapes w :
  exists (token workspaceId : Value) (e : Thrown),
    let config := secrets (webtask context) in
    let G := EvGetUser (userId user) in
    let FT :=
      EvFetch (TOKEN_ENDPOINT config) (_getToken_options host config) in
    let FM :=
      EvFetch (_createMember_url host workspaceId)
              (_createMember_options host token (userId user)
                                     (User.email user)) in
    let U := EvUpdateAppMetadata (userId user) newAppMetadata in
    In (trace_of (run_hook host user context cb w))
       [ [EvCb (Some e)];
         [G];
         [G; EvCb (Some e)];
         [G; FT; EvCb (Some e)];
         [G; FT; FM; EvCb (Some e)];
         [G; FT; FM; U; EvCb (Some e)];
         [G; FT; FM; U; EvCb None];
         [G; FT; FM; U; EvCb None; EvCb (Some e)] ].
Proof.
  unfold_hook. simpl.
  repeat case_next;
    do 3 eexists; simpl;
    repeat first [left; reflexivity | right].
  Unshelve. all: first [exact Undefined | exact TypeError].
Qed.

(** A [try] block that throws does so in one of the four steps, unless it
    is the final [cb()] itself that threw. *)
Lemma try_block_throws w0 e st :
  try_block host user context cb (w0, []) = (Throw e, st) ->
  step_raises host user context (w0, []) e st \/ In (EvCb None) (snd st).
Proof.
  rewrite try_block_steps.
  destruct (read_metadata host user context (w0, []))
    as [[[[c md] flag]|e0] st1] eqn:Hread.
  2: { intros H. inversion H; subst. left. apply raises_read. exact Hread. }
  destruct (ToBoolean flag) eqn:Hflag; simpl; [|discriminate].
  destruct (_getToken host (secrets (webtask context)) st1)
    as [[token|e1] st2] eqn:Htok.
  2: { rewrite (bind_throw _ _ _ _ _ Htok). intros H. inversion H; subst.
       left. eapply raises_token; eauto. }
  rewrite (bind_normal _ _ _ _ _ Htok).
  destruct (_createMember host token (Get md "workspaceId") (userId user)
              (User.email user) st2) as [[created|e2] st3] eqn:Hmem.
  2: { rewrite (bind_throw _ _ _ _ _ Hmem). intros H. inversion H; subst.
       left. eapply raises_member; eauto. }
  rewrite (bind_normal _ _ _ _ _ Hmem).
  destruct (replace_metadata host c user st3) as [[updated|e3] st4] eqn:Hupd.
  2: { rewrite (bind_throw _ _ _ _ _ Hupd). intros H. inversion H; subst.
       left. eapply raises_update; eauto. }
  rewrite (bind_normal _ _ _ _ _ Hupd).
  intros H. right.
  pose proof (invoke_trace None st4) as Ht. rewrite H in Ht.
  unfold trace_of in Ht. simpl in Ht. rewrite Ht.
  apply in_or_app. right. left. reflexivity.
Qed.
End Runs.

(** ** Facts that hold of every run *)

(** Splits on the eight traces of the run the goal is about. *)
Ltac by_shape :=
  match goal with
  | |- context [run_hook ?h ?u ?c ?k ?w] =>
      let Hsh := fresh "Hsh" in
      let token := fresh "token" in
      let ws := fresh "ws" in
      let e := fresh "e" in
      destruct (trace_shapes h u c k w) as (token & ws & e & Hsh);
      cbv zeta in Hsh; simpl in Hsh;
      repeat (destruct Hsh as [Hsh|Hsh]); try contradiction;
      rewrite <- Hsh; clear Hsh
  end.

Section EveryRun.
Context {W : Type}.
Variable host : Host W.
Variables (user : User.t) (context : Context) (cb : Callback W) (w : W).

(** The only identifier [getUser] is ever called with. *)
Lemma getUser_in_trace id :
  In (EvGetUser id) (trace_of (run_hook host user context cb w)) ->
  id = userId user.
Proof. by_shape; simpl; intuition congruence. Qed.

(** The only identifier and payload [updateAppMetadata] is ever called
    with. *)
Lemma update_in_trace id md :
  In (EvUpdateAppMetadata id md) (trace_of (run_hook host user context cb w)) ->
  id = userId user /\ md = newAppMetadata.
Proof. by_shape; simpl; intuition congruence. Qed.

(** A trace with an update leaves the stored metadata patched once. *)
Lemma store_after_update patch s id md :
  In (EvUpdateAppMetadata id md) (trace_of (run_hook host user context cb w)) ->
  store_after patch s (trace_of (run_hook host user context cb w)) !! id
  = Some (patch (default (Obj []) (s !! id)) md).
Proof.
  intros Hin. destruct (update_in_trace id md Hin) as [-> ->].
  revert Hin.
  by_shape; simpl; try (intuition congruence);
    intros _; unfold store_after; simpl; apply lookup_insert_eq.
Qed.

(** No call is made twice. *)
Lemma trace_NoDup : List.NoDup (trace_of (run_hook host user context cb w)).
Proof.
  by_shape;
    repeat (apply List.NoDup_cons; [simpl; unfold _getToken_options,
              _createMember_options; intuition congruence|]);
    apply List.NoDup_nil.
Qed.
End EveryRun.

(** A trace without an update leaves the store as it was. *)
Lemma store_after_no_update patch s (t : list Event) :
  existsb is_update t = false -> store_after patch s t = s.
Proof.
  unfold store_after. revert s.
  induction t as [|ev t IH]; intros s Hno; [reflexivity|].
  simpl in Hno. apply orb_false_elim in Hno as [Hev Ht].
  simpl. destruct ev; simpl in Hev; try discriminate; apply IH, Ht.
Qed.

(** * Properties stated by the specification *)

(** C1.  Evaluation of the hook for a user whose metadata carries
    [isUserInvite: false], and for one whose metadata carries no flag: the
    only outbound call is the metadata read and the promise fulfils, but the
    completion callback is invoked in neither run. *)
Theorem C1_noop_branch_returns_without_cb :
  let declined :=
    Demo.run (Demo.with_user (Demo.record_with (Demo.invite (Bool false)))
                             Demo.happy) in
  let unflagged :=
    Demo.run (Demo.with_user
                (Demo.record_with (Obj [("workspaceId", Str "ws1")]))
                Demo.happy) in
  declined = (Normal tt, (2%nat, [EvGetUser "auth0|abc123"]))
  /\ unflagged = (Normal tt, (2%nat, [EvGetUser "auth0|abc123"]))
  /\ existsb is_callback (trace_of declined) = false
  /\ existsb is_callback (trace_of unflagged) = false.
Proof. repeat split; reflexivity. Qed.

(** C2.  When the fetched metadata has [isUserInvite] equal to [true],
    its [workspaceId] and the token of the response convert to strings (as
    the strings they are meant to be do), and every outbound call succeeds,
    the hook performs, after the metadata read, exactly one token request,
    then exactly one member-creation request whose body is the JSON text of
    [{userId: "auth0|<id>", email: <email>, fullName: "User"}], then exactly
    one metadata update with [{isUserInvite: false, inviteMsg: ""}], and
    then calls [cb()].  Nothing but callback invocations follows, and when
    [cb()] returns the promise of the hook fulfils. *)
Theorem C2_invited_user_is_provisioned
    {W : Type} (host : Host W) (user : User.t) (context : Context)
    (cb : Callback W) (w0 w1 w2 w3 w4 w5 : W) (c : ManagementClient)
    (fetched tokenBody created updated : Value) (tokenRes memberRes : Response)
    (wsText tokenText : string) :
  let config := secrets (webtask context) in
  let md := Get fetched "app_metadata" in
  let memberUrl :=
    "https://api.upstand.fm/workspaces/" +:+ wsText +:+ "/members" in
  let memberRequest := {|
    method := "POST";
    headers := [
      ("content-type", "application/json");
      ("Authorization", "Bearer " +:+ tokenText)];
    body := JSON_stringify host (Obj [
      ("userId", Str ("auth0|" +:+ User.id user));
      ("email", Str (User.email user));
      ("fullName", Str "User")]) |} in
  let calls := [
    EvGetUser ("auth0|" +:+ User.id user);
    EvFetch (TOKEN_ENDPOINT config) (_getToken_options host config);
    EvFetch memberUrl memberRequest;
    EvUpdateAppMetadata ("auth0|" +:+ User.id user)
      (Obj [("isUserInvite", Bool false); ("inviteMsg", Str "")]);
    EvCb None ] in
  new_ManagementClient host (managementClient_options config) w0
    = (Normal c, w1) ->
  getUser host c (userId user) w1 = (Normal fetched, w2) ->
  Get md "isUserInvite" = Bool true ->
  ToString (Number_toString host) (Get md "workspaceId") = Normal wsText ->
  fetch host (TOKEN_ENDPOINT config) (_getToken_options host config) w2
    = (Normal tokenRes, w3) ->
  ok tokenRes = true ->
  json tokenRes = Normal tokenBody ->
  nullish tokenBody = false ->
  ToString (Number_toString host) (Get tokenBody "access_token")
    = Normal tokenText ->
  fetch host memberUrl memberRequest w3 = (Normal memberRes, w4) ->
  ok memberRes = true ->
  json memberRes = Normal created ->
  updateAppMetadata host c (userId user) newAppMetadata w4
    = (Normal updated, w5) ->
  (exists rest,
      trace_of (run_hook host user context cb w0) = (calls ++ rest)%list
      /\ forallb is_callback rest = true)
  /\ (forall v w6, cb None w5 = (Normal v, w6) ->
        run_hook host user context cb w0 = (Normal tt, (w6, calls))).
Proof.
  intros config md memberUrl memberRequest calls
    Hc Hu Hflag Hws Ht Hok Hj Hn Htk Hm Hok' Hj' Hup.
  destruct (flag_present fetched (Bool true) Hflag ltac:(discriminate))
    as (Hnf & Hmd & Hnm).
  assert (Htruthy :
            ToBoolean (Get (app_metadata_of fetched) "isUserInvite") = true).
  { rewrite Hmd. fold md. rewrite Hflag. reflexivity. }
  assert (Hurl : _createMember_url host (Get md "workspaceId") = memberUrl)
    by (apply _createMember_url_text; exact Hws).
  assert (Hopts : _createMember_options host (Get tokenBody "access_token")
                    (userId user) (User.email user) = memberRequest)
    by (apply _createMember_options_text; exact Htk).
  rewrite <- Hurl, <- Hopts in Hm.
  pose proof (hook_provision host user context cb w0 c w1 fetched w2
                Hc Hu Hnf Hnm Htruthy) as Hrun.
  rewrite Hmd in Hrun. fold md in Hrun.
  unfold try_catch in Hrun.
  rewrite (provision_success host user context cb c md w2 _ tokenRes w3
             tokenBody memberRes w4 created updated w5 wsText tokenText
             Ht Hok Hj Hn Hws Htk Hm Hok' Hj' Hup) in Hrun.
  rewrite Hurl, Hopts in Hrun.
  rewrite Hrun. clear Hrun. unfold invoke, trace_of. unfold_monad. simpl.
  split.
  - destruct (cb None w5) as [[v|e] w6]; simpl.
    + exists []. split; reflexivity.
    + exists [EvCb (Some e)].
      destruct (cb (Some e) w6) as [[v'|e'] w7]; split; reflexivity.
  - intros v w6 Hcb. rewrite Hcb. reflexivity.
Qed.

Lemma C2_witness :
  Demo.run Demo.happy
  = (Normal tt,
     (6%nat,
      [ EvGetUser "auth0|abc123";
        EvFetch "https://upstandfm.eu.auth0.com/oauth/token"
          (_getToken_options (Demo.host Demo.happy) Demo.config);
        EvFetch "https://api.upstand.fm/workspaces/ws1/members"
          {| method := "POST";
             headers := [("content-type", "application/json");
                         ("Authorization", "Bearer tok")];
             body := Demo.stringify (Obj [("userId", Str "auth0|abc123");
                                          ("email", Str "jane@example.com");
                                          ("fullName", Str "User")]) |};
        EvUpdateAppMetadata "auth0|abc123"
          (Obj [("isUserInvite", Bool false); ("inviteMsg", Str "")]);
        EvCb None ])).
Proof.
  exact (proj2
    (C2_invited_user_is_provisioned (Demo.host Demo.happy) Demo.user
       Demo.context Demo.cb 0%nat 1%nat 2%nat 3%nat 4%nat 5%nat Demo.client
       (Demo.record_with (Demo.invite (Bool true))) Demo.token_body
       Demo.created_member (Obj [])
       (Demo.response 200 Demo.token_body)
       (Demo.response 201 Demo.created_member)
       "ws1" "tok"
       eq_refl eq_refl eq_refl eq_refl eq_refl eq_refl eq_refl eq_refl
       eq_refl eq_refl eq_refl eq_refl eq_refl)
    Undefined 6%nat eq_refl).
Defined.

(** C3.  Whenever a run calls [updateAppMetadata], the object it sends is
    the literal [{isUserInvite: false, inviteMsg: ""}], whose flag is
    [false] and whose message is empty; the run makes that call once, so the
    stored metadata ends up as the provider's combination of the old object
    with this literal, and as the literal itself when sending replaces. *)
Theorem C3_update_payload_is_literal
    {W : Type} (host : Host W) (user : User.t) (context : Context)
    (cb : Callback W) (w : W) (id : string) (md : Value) :
  let tr := trace_of (run_hook host user context cb w) in
  In (EvUpdateAppMetadata id md) tr ->
  md = Obj [("isUserInvite", Bool false); ("inviteMsg", Str "")]
  /\ Get md "isUserInvite" = Bool false
  /\ Get md "inviteMsg" = Str ""
  /\ (forall patch s,
        store_after patch s tr !! id
        = Some (patch (default (Obj []) (s !! id)) md))
  /\ (forall s, store_after patch_replace s tr !! id = Some md).
Proof.
  intros tr Hin.
  destruct (update_in_trace host user context cb w id md Hin) as [Hid Hmd].
  assert (Hstore : forall patch s,
             store_after patch s tr !! id
             = Some (patch (default (Obj []) (s !! id)) md))
    by (intros; apply store_after_update; exact Hin).
  subst md. repeat split; try reflexivity; [exact Hstore|].
  intros s. rewrite Hstore. reflexivity.
Qed.

Lemma C3_witness :
  store_after patch_replace ∅ (trace_of (Demo.run Demo.happy))
    !! "auth0|abc123"
  = Some (Obj [("isUserInvite", Bool false); ("inviteMsg", Str "")]).
Proof.
  destruct (C3_update_payload_is_literal (Demo.host Demo.happy) Demo.user
              Demo.context Demo.cb 0%nat "auth0|abc123" newAppMetadata)
    as (_ & _ & _ & _ & Hstore).
  - simpl. tauto.
  - exact (Hstore ∅).
Defined.

(** C4.  When the flag is [true] and the token endpoint answers with a
    status outside 200..299, [_getToken] throws, the run consists of the
    metadata read, the token request and [cb(err)] with that error, and so
    contains no member-creation request and no metadata update. *)
Theorem C4_token_failure_aborts
    {W : Type} (host : Host W) (user : User.t) (context : Context)
    (cb : Callback W) (w0 w1 w2 w3 : W) (c : ManagementClient)
    (fetched : Value) (tokenRes : Response) :
  let config := secrets (webtask context) in
  let tokenCall :=
    EvFetch (TOKEN_ENDPOINT config) (_getToken_options host config) in
  let err := Error "Failed to fetch token" in
  new_ManagementClient host (managementClient_options config) w0
    = (Normal c, w1) ->
  getUser host c (userId user) w1 = (Normal fetched, w2) ->
  Get (Get fetched "app_metadata") "isUserInvite" = Bool true ->
  fetch host (TOKEN_ENDPOINT config) (_getToken_options host config) w2
    = (Normal tokenRes, w3) ->
  ok tokenRes = false ->
  _getToken host config (w2, [EvGetUser (userId user)])
    = (Throw err, (w3, [EvGetUser (userId user); tokenCall]))
  /\ trace_of (run_hook host user context cb w0)
     = [EvGetUser (userId user); tokenCall; EvCb (Some err)]
  /\ length (List.filter outbound (trace_of (run_hook host user context cb w0)))
     = 2%nat
  /\ existsb is_update (trace_of (run_hook host user context cb w0)) = false.
Proof.
  intros config tokenCall err Hc Hu Hflag Ht Hok.
  destruct (flag_present fetched (Bool true) Hflag ltac:(discriminate))
    as (Hnf & Hmd & Hnm).
  assert (Htruthy :
            ToBoolean (Get (app_metadata_of fetched) "isUserInvite") = true)
    by (rewrite Hmd, Hflag; reflexivity).
  pose proof (_getToken_not_ok host config w2 [EvGetUser (userId user)]
                tokenRes w3 Ht Hok) as Htok.
  assert (Htr : trace_of (run_hook host user context cb w0)
                = [EvGetUser (userId user); tokenCall; EvCb (Some err)]).
  { rewrite (hook_provision host user context cb w0 c w1 fetched w2
               Hc Hu Hnf Hnm Htruthy).
    unfold try_catch, provision. rewrite (bind_throw _ _ _ _ _ Htok).
    rewrite invoke_trace. reflexivity. }
  split; [exact Htok|]. split; [exact Htr|]. rewrite Htr. split; reflexivity.
Qed.

Lemma C4_witness :
  trace_of (Demo.run (Demo.with_token (Demo.response 401 (Obj [])) Demo.happy))
  = [ EvGetUser "auth0|abc123";
      EvFetch "https://upstandfm.eu.auth0.com/oauth/token"
        (_getToken_options (Demo.host Demo.happy) Demo.config);
      EvCb (Some (Error "Failed to fetch token")) ].
Proof.
  exact (proj1 (proj2
    (C4_token_failure_aborts
       (Demo.host (Demo.with_token (Demo.response 401 (Obj [])) Demo.happy))
       Demo.user Demo.context Demo.cb 0%nat 1%nat 2%nat 3%nat Demo.client
       (Demo.record_with (Demo.invite (Bool true)))
       (Demo.response 401 (Obj []))
       eq_refl eq_refl eq_refl eq_refl eq_refl))).
Defined.

(** C5.  When the flag is [true], the token is obtained, the [workspaceId]
    and the token convert to strings (as the strings they are meant to be
    do), and the member-creation endpoint answers with a status outside
    200..299, the run
    consists of the metadata read, the two requests and [cb(err)] with the
    error of [_createMember]; it contains no metadata update, so the stored
    metadata of every user is what it was before the run. *)
Theorem C5_member_failure_leaves_metadata
    {W : Type} (host : Host W) (user : User.t) (context : Context)
    (cb : Callback W) (w0 w1 w2 w3 w4 : W) (c : ManagementClient)
    (fetched tokenBody : Value) (tokenRes memberRes : Response)
    (wsText tokenText : string) :
  let config := secrets (webtask context) in
  let md := Get fetched "app_metadata" in
  let tokenCall :=
    EvFetch (TOKEN_ENDPOINT config) (_getToken_options host config) in
  let memberCall :=
    EvFetch (_createMember_url host (Get md "workspaceId"))
            (_createMember_options host (Get tokenBody "access_token")
                                   (userId user) (User.email user)) in
  let err := Error "Failed to create workspace member" in
  let tr := trace_of (run_hook host user context cb w0) in
  new_ManagementClient host (managementClient_options config) w0
    = (Normal c, w1) ->
  getUser host c (userId user) w1 = (Normal fetched, w2) ->
  Get md "isUserInvite" = Bool true ->
  ToString (Number_toString host) (Get md "workspaceId") = Normal wsText ->
  fetch host (TOKEN_ENDPOINT config) (_getToken_options host config) w2
    = (Normal tokenRes, w3) ->
  ok tokenRes = true ->
  json tokenRes = Normal tokenBody ->
  nullish tokenBody = false ->
  ToString (Number_toString host) (Get tokenBody "access_token")
    = Normal tokenText ->
  fetch host (_createMember_url host (Get md "workspaceId"))
        (_createMember_options host (Get tokenBody "access_token")
                               (userId user) (User.email user)) w3
    = (Normal memberRes, w4) ->
  ok memberRes = false ->
  tr = [EvGetUser (userId user); tokenCall; memberCall; EvCb (Some err)]
  /\ existsb is_update tr = false
  /\ (forall patch s, store_after patch s tr = s)
  /\ (forall patch s,
        Get (default (Obj []) (s !! userId user)) "isUserInvite" = Bool true ->
        Get (default (Obj []) (store_after patch s tr !! userId user))
            "isUserInvite" = Bool true).
Proof.
  intros config md tokenCall memberCall err tr
    Hc Hu Hflag Hws Ht Hok Hj Hn Htk Hm Hok'.
  destruct (flag_present fetched (Bool true) Hflag ltac:(discriminate))
    as (Hnf & Hmd & Hnm).
  assert (Htruthy :
            ToBoolean (Get (app_metadata_of fetched) "isUserInvite") = true).
  { rewrite Hmd. fold md. rewrite Hflag. reflexivity. }
  assert (Htr : tr = [EvGetUser (userId user); tokenCall; memberCall;
                      EvCb (Some err)]).
  { unfold tr.
    rewrite (hook_provision host user context cb w0 c w1 fetched w2
               Hc Hu Hnf Hnm Htruthy).
    rewrite Hmd. fold md. unfold try_catch, provision.
    rewrite (bind_normal _ _ _ _ _
               (_getToken_normal host config w2 _ _ _ _ Ht Hok Hj Hn)).
    rewrite (bind_throw _ _ _ _ _
               (_createMember_not_ok host _ _ _ _ w3 _ _ _ _ _ Hws Htk
                  Hm Hok')).
    rewrite invoke_trace. reflexivity. }
  assert (Hno : existsb is_update tr = false) by (rewrite Htr; reflexivity).
  split; [exact Htr|]. split; [exact Hno|].
  split; intros patch s.
  - apply store_after_no_update, Hno.
  - intros Hs. rewrite (store_after_no_update patch s tr Hno). exact Hs.
Qed.

Lemma C5_witness :
  trace_of (Demo.run (Demo.with_member (Demo.response 500 (Obj [])) Demo.happy))
  = [ EvGetUser "auth0|abc123";
      EvFetch "https://upstandfm.eu.auth0.com/oauth/token"
        (_getToken_options (Demo.host Demo.happy) Demo.config);
      EvFetch "https://api.upstand.fm/workspaces/ws1/members"
        (_createMember_options (Demo.host Demo.happy) (Str "tok")
                               "auth0|abc123" "jane@example.com");
      EvCb (Some (Error "Failed to create workspace member")) ].
Proof.
  exact (proj1
    (C5_member_failure_leaves_metadata
       (Demo.host (Demo.with_member (Demo.response 500 (Obj [])) Demo.happy))
       Demo.user Demo.context Demo.cb 0%nat 1%nat 2%nat 3%nat 4%nat Demo.client
       (Demo.record_with (Demo.invite (Bool true))) Demo.token_body
       (Demo.response 200 Demo.token_body) (Demo.response 500 (Obj []))
       "ws1" "tok"
       eq_refl eq_refl eq_refl eq_refl eq_refl eq_refl eq_refl eq_refl
       eq_refl eq_refl eq_refl)).
Defined.

(** C6.  If one of the four steps (metadata read, token request, member
    creation, metadata update) throws [e] after the steps before it
    completed, the hook does nothing more than call [cb(e)]: the run is the
    failing step's state followed by that one call, no callback was invoked
    before it, [cb()] is never invoked, and no call occurs twice in the
    trace. *)
Theorem C6_step_errors_reach_cb
    {W : Type} (host : Host W) (user : User.t) (context : Context)
    (cb : Callback W) (w0 : W) (e : Thrown) (st : W * list Event) :
  let r := run_hook host user context cb w0 in
  step_raises host user context (w0, []) e st ->
  r = invoke cb (Some e) st
  /\ trace_of r = (snd st ++ [EvCb (Some e)])%list
  /\ existsb is_callback (snd st) = false
  /\ ~ In (EvCb None) (trace_of r)
  /\ List.NoDup (trace_of r).
Proof.
  intros r Hstep.
  assert (Hrun : r = invoke cb (Some e) st
                 /\ existsb is_callback (snd st) = false).
  { unfold r. rewrite run_hook_steps.
    destruct Hstep as [Hread | c md flag st1 Hread Hflag Htok
                       | c md flag st1 token st2 Hread Hflag Htok Hmem
                       | c md flag st1 token st2 member st3 Hread Hflag Htok
                           Hmem Hupd].
    - rewrite Hread. split; [reflexivity|].
      pose proof (read_metadata_trace host user context (w0, [])) as Ht.
      rewrite Hread in Ht. unfold trace_of in Ht. simpl in Ht.
      destruct Ht as [-> | ->]; reflexivity.
    - pose proof (read_metadata_normal_trace host _ _ _ _ _ Hread) as H1.
      pose proof (_getToken_trace host (secrets (webtask context)) st1) as H2.
      rewrite Htok in H2. unfold trace_of in H2. simpl in H1, H2.
      rewrite Hread, Hflag. simpl. unfold try_catch, provision.
      rewrite (bind_throw _ _ _ _ _ Htok). split; [reflexivity|].
      rewrite H2, H1. reflexivity.
    - pose proof (read_metadata_normal_trace host _ _ _ _ _ Hread) as H1.
      pose proof (_getToken_trace host (secrets (webtask context)) st1) as H2.
      pose proof (_createMember_trace host token (Get md "workspaceId")
                    (userId user) (User.email user) st2) as H3.
      rewrite Htok in H2. rewrite Hmem in H3. unfold trace_of in H2, H3.
      simpl in H1, H2, H3.
      rewrite Hread, Hflag. simpl. unfold try_catch, provision.
      rewrite (bind_normal _ _ _ _ _ Htok), (bind_throw _ _ _ _ _ Hmem).
      split; [reflexivity|].
      destruct H3 as [H3 | H3]; rewrite H3, H2, H1; reflexivity.
    - pose proof (read_metadata_normal_trace host _ _ _ _ _ Hread) as H1.
      pose proof (_getToken_trace host (secrets (webtask context)) st1) as H2.
      pose proof (_createMember_normal_trace host _ _ _ _ _ _ _ Hmem) as H3.
      pose proof (replace_metadata_trace host c user st3) as H4.
      rewrite Htok in H2. rewrite Hupd in H4.
      unfold trace_of in H2, H4. simpl in H1, H2, H3, H4.
      rewrite Hread, Hflag. simpl. unfold try_catch, provision.
      rewrite (bind_normal _ _ _ _ _ Htok), (bind_normal _ _ _ _ _ Hmem),
        (bind_throw _ _ _ _ _ Hupd).
      split; [reflexivity|]. rewrite H4, H3, H2, H1. reflexivity. }
  destruct Hrun as [Hrun Hnocb].
  assert (Htr : trace_of r = (snd st ++ [EvCb (Some e)])%list)
    by (rewrite Hrun; apply invoke_trace).
  repeat split; try assumption.
  - rewrite Htr. intros Hin. apply in_app_or in Hin as [Hin|Hin].
    + assert (existsb is_callback (snd st) = true) as Habs
        by (apply existsb_exists; exists (EvCb None); auto).
      congruence.
    + simpl in Hin. intuition congruence.
  - apply trace_NoDup.
Qed.

Lemma C6_witness :
  Demo.run (Demo.with_member (Demo.response 500 (Obj [])) Demo.happy)
  = invoke Demo.cb (Some (Error "Failed to create workspace member"))
      (4%nat,
       [ EvGetUser "auth0|abc123";
         EvFetch "https://upstandfm.eu.auth0.com/oauth/token"
           (_getToken_options (Demo.host Demo.happy) Demo.config);
         EvFetch "https://api.upstand.fm/workspaces/ws1/members"
           (_createMember_options (Demo.host Demo.happy) (Str "tok")
                                  "auth0|abc123" "jane@example.com") ]).
Proof.
  pose (s := Demo.with_member (Demo.response 500 (Obj [])) Demo.happy).
  refine (proj1
    (C6_step_errors_reach_cb (Demo.host s) Demo.user Demo.context Demo.cb
       0%nat _ _
       (raises_member (Demo.host s) Demo.user Demo.context (0%nat, []) _ _
          Demo.client (Demo.invite (Bool true)) (Bool true)
          (2%nat, [EvGetUser "auth0|abc123"]) (Str "tok")
          (3%nat, [EvGetUser "auth0|abc123";
                   EvFetch "https://upstandfm.eu.auth0.com/oauth/token"
                     (_getToken_options (Demo.host s) Demo.config)])
          eq_refl eq_refl eq_refl eq_refl))).
Defined.

(** C7.  The identifier given to the management API is ["auth0|"] followed
    by the user's raw id: that is the value of [userId], every [getUser] and
    every [updateAppMetadata] call of every run carries it, the read with it
    is the first call of a run once the client is built, and for the raw id
    ["abc123"] it is ["auth0|abc123"]. *)
Theorem C7_management_identifier
    {W : Type} (host : Host W) (user : User.t) (context : Context)
    (cb : Callback W) (w : W) :
  let tr := trace_of (run_hook host user context cb w) in
  userId user = "auth0|" +:+ User.id user
  /\ (forall id, In (EvGetUser id) tr -> id = "auth0|" +:+ User.id user)
  /\ (forall id md,
        In (EvUpdateAppMetadata id md) tr -> id = "auth0|" +:+ User.id user)
  /\ (forall c w1,
        new_ManagementClient host
          (managementClient_options (secrets (webtask context))) w
          = (Normal c, w1) ->
        exists rest, tr = EvGetUser ("auth0|" +:+ User.id user) :: rest)
  /\ (forall name mail reset,
        userId {| User.id := "abc123"; User.username := name;
                  User.email := mail; User.last_password_reset := reset |}
        = "auth0|abc123").
Proof.
  intros tr. split; [reflexivity|]. split; [|split; [|split]].
  - intros id Hin. apply (getUser_in_trace host user context cb w id Hin).
  - intros id md Hin.
    apply (update_in_trace host user context cb w id md Hin).
  - intros c w1 Hc. unfold tr. unfold_hook. simpl. rewrite Hc. simpl.
    repeat case_next; eexists; reflexivity.
  - reflexivity.
Qed.

Lemma C7_witness :
  exists rest,
    trace_of (Demo.run Demo.happy) = EvGetUser "auth0|abc123" :: rest.
Proof.
  exact (proj1 (proj2 (proj2 (proj2
    (C7_management_identifier (Demo.host Demo.happy) Demo.user Demo.context
       Demo.cb 0%nat)))) Demo.client 1%nat eq_refl).
Defined.

(** C8.  When the token endpoint answers with a status in 200..299 and a
    JSON body that can be destructured, [_getToken] returns the value of the
    body's [access_token] property, having made its one request. *)
Theorem C8_getToken_returns_access_token
    {W : Type} (host : Host W) (secrets : Secrets) (w w' : W)
    (tr : list Event) (res : Response) (parsed : Value) :
  fetch host (TOKEN_ENDPOINT secrets) (_getToken_options host secrets) w
    = (Normal res, w') ->
  ok res = true ->
  json res = Normal parsed ->
  nullish parsed = false ->
  _getToken host secrets (w, tr)
  = (Normal (Get parsed "access_token"),
     (w', (tr ++ [EvFetch (TOKEN_ENDPOINT secrets)
                          (_getToken_options host secrets)])%list)).
Proof. apply _getToken_normal. Qed.

Lemma C8_witness :
  _getToken (Demo.host Demo.happy) Demo.config (2%nat, [])
  = (Normal (Str "tok"),
     (3%nat, [EvFetch "https://upstandfm.eu.auth0.com/oauth/token"
                (_getToken_options (Demo.host Demo.happy) Demo.config)])).
Proof.
  exact (C8_getToken_returns_access_token (Demo.host Demo.happy) Demo.config
           2%nat 3%nat [] (Demo.response 200 Demo.token_body) Demo.token_body
           eq_refl eq_refl eq_refl eq_refl).
Defined.

(** C9.  When the record returned by [getUser] has no [app_metadata]
    property, the metadata is the empty object, its flag reads as
    [undefined], and the hook takes the early return: the promise fulfils
    after the one read and nothing is thrown. *)
Theorem C9_missing_app_metadata_is_noop
    {W : Type} (host : Host W) (user : User.t) (context : Context)
    (cb : Callback W) (w0 w1 w2 : W) (c : ManagementClient)
    (props : list (string * Value)) :
  new_ManagementClient host
    (managementClient_options (secrets (webtask context))) w0
    = (Normal c, w1) ->
  getUser host c (userId user) w1 = (Normal (Obj props), w2) ->
  (forall v, ~ In ("app_metadata", v) props) ->
  app_metadata_of (Obj props) = Obj []
  /\ Get (app_metadata_of (Obj props)) "isUserInvite" = Undefined
  /\ run_hook host user context cb w0
     = (Normal tt, (w2, [EvGetUser (userId user)])).
Proof.
  intros Hc Hu Habs.
  assert (Hmd : app_metadata_of (Obj props) = Obj []).
  { unfold app_metadata_of. simpl. rewrite (lookup_prop_absent _ _ Habs).
    reflexivity. }
  split; [exact Hmd|]. split; [rewrite Hmd; reflexivity|].
  apply (hook_noop host user context cb w0 c w1 (Obj props) w2 Hc Hu);
    rewrite ?Hmd; reflexivity.
Qed.

Lemma C9_witness :
  Demo.run (Demo.with_user (Obj [("user_id", Str "auth0|abc123");
                                 ("email", Str "jane@example.com")])
                           Demo.happy)
  = (Normal tt, (2%nat, [EvGetUser "auth0|abc123"])).
Proof.
  pose (props := [("user_id", Str "auth0|abc123");
                  ("email", Str "jane@example.com")]).
  refine (proj2 (proj2
    (C9_missing_app_metadata_is_noop
       (Demo.host (Demo.with_user (Obj props) Demo.happy))
       Demo.user Demo.context Demo.cb 0%nat 1%nat 2%nat Demo.client props
       eq_refl eq_refl _))).
  intros v [H|[H|[]]]; discriminate H.
Defined.

(** C10.  The test of line 140 is ToBoolean of the flag, not a comparison
    with [true].  Once the metadata is read, a falsy flag makes the hook
    return after the read, and a truthy flag makes it run the token request,
    the member creation, the metadata update and [cb()] under the [catch],
    starting with the token request.  [1] and the string ["false"] are
    truthy; [false], [0], [-0], [NaN], the empty string, [null] and
    [undefined] are falsy. *)
Theorem C10_flag_is_tested_for_truthiness
    {W : Type} (host : Host W) (user : User.t) (context : Context)
    (cb : Callback W) (w0 w1 w2 : W) (c : ManagementClient) (fetched : Value) :
  let config := secrets (webtask context) in
  let md := app_metadata_of fetched in
  let flag := Get md "isUserInvite" in
  let r := run_hook host user context cb w0 in
  let provisioning : M W unit :=
    token ← _getToken host config;
    _ ← _createMember host token (Get md "workspaceId")
                      (userId user) (User.email user);
    _ ← replace_metadata host c user;
    invoke cb None in
  new_ManagementClient host (managementClient_options config) w0
    = (Normal c, w1) ->
  getUser host c (userId user) w1 = (Normal fetched, w2) ->
  nullish fetched = false ->
  nullish md = false ->
  (ToBoolean flag = false ->
     r = (Normal tt, (w2, [EvGetUser (userId user)])))
  /\ (ToBoolean flag = true ->
        r = try_catch provisioning (fun err => invoke cb (Some err))
                      (w2, [EvGetUser (userId user)])
        /\ exists rest,
             trace_of r
             = EvGetUser (userId user)
               :: EvFetch (TOKEN_ENDPOINT config) (_getToken_options host config)
               :: rest)
  /\ ToBoolean (Num PrimFloat.one) = true
  /\ ToBoolean (Str "false") = true
  /\ ToBoolean (Bool false) = false
  /\ ToBoolean (Num PrimFloat.zero) = false
  /\ ToBoolean (Num PrimFloat.neg_zero) = false
  /\ ToBoolean (Num PrimFloat.nan) = false
  /\ ToBoolean (Str "") = false
  /\ ToBoolean Null = false
  /\ ToBoolean Undefined = false.
Proof.
  intros config md flag r provisioning Hc Hu Hnf Hnm.
  split; [|split; [|repeat split; reflexivity]].
  - intros Hflag.
    apply (hook_noop host user context cb w0 c w1 fetched w2 Hc Hu Hnf Hnm Hflag).
  - intros Hflag.
    pose proof (hook_provision host user context cb w0 c w1 fetched w2
                  Hc Hu Hnf Hnm Hflag) as Hrun.
    split; [exact Hrun|].
    subst r provisioning. rewrite Hrun. clear Hrun. unfold_hook. simpl.
    repeat case_next; eexists; reflexivity.
Qed.

Lemma C10_witness :
  exists rest,
    trace_of (Demo.run (Demo.with_user
                          (Demo.record_with (Demo.invite (Str "false")))
                          Demo.happy))
    = EvGetUser "auth0|abc123"
      :: EvFetch "https://upstandfm.eu.auth0.com/oauth/token"
           (_getToken_options (Demo.host Demo.happy) Demo.config)
      :: rest.
Proof.
  exact (proj2 (proj1 (proj2
    (C10_flag_is_tested_for_truthiness
       (Demo.host (Demo.with_user
                     (Demo.record_with (Demo.invite (Str "false")))
                     Demo.happy))
       Demo.user Demo.context Demo.cb 0%nat 1%nat 2%nat Demo.client
       (Demo.record_with (Demo.invite (Str "false")))
       eq_refl eq_refl eq_refl eq_refl)) eq_refl)).
Defined.

(** * Further properties of the code *)

(** ** How a run ends *)

(** X1.  The promise returned by [createWorkspaceMember] fulfils in every
    run but one kind: it rejects exactly with what the [cb(err)] call of the
    [catch] block threw, that call being the last thing the run did. *)
Theorem X1_promise_rejects_only_through_cb
    {W : Type} (host : Host W) (user : User.t) (context : Context)
    (cb : Callback W) (w : W) :
  let r := run_hook host user context cb w in
  fst r = Normal tt
  \/ exists e e' w1 w2,
       fst r = Throw e'
       /\ cb (Some e) w1 = (Throw e', w2)
       /\ last (trace_of r) = Some (EvCb (Some e)).
Proof.
  intros r. subst r. unfold_hook. simpl.
  repeat case_next;
    first [ left; reflexivity
          | right; do 4 eexists;
            split; [reflexivity|]; split; [eassumption | reflexivity] ].
Qed.

(** X2.  The completion callback is skipped on one path only, the early
    return of line 141: a run in which [cb] is never invoked is a run that
    made the metadata read, nothing else, and fulfilled. *)
Theorem X2_cb_skipped_only_by_early_return
    {W : Type} (host : Host W) (user : User.t) (context : Context)
    (cb : Callback W) (w : W) :
  let r := run_hook host user context cb w in
  existsb is_callback (trace_of r) = true
  \/ (fst r = Normal tt /\ trace_of r = [EvGetUser (userId user)]).
Proof.
  intros r. subst r. unfold_hook. simpl.
  repeat case_next;
    first [ left; reflexivity | right; split; reflexivity ].
Qed.

(** X3.  In every run the outbound calls are an initial part of the
    sequence metadata read, token request, member request, metadata update:
    no request is sent before the read, no member request before the token
    request, no update before the member request.  Every invocation of [cb]
    comes after the last outbound call, and there are at most two. *)
Theorem X3_calls_follow_one_order
    {W : Type} (host : Host W) (user : User.t) (context : Context)
    (cb : Callback W) (w : W) :
  let tr := trace_of (run_hook host user context cb w) in
  let config := secrets (webtask context) in
  exists (token workspaceId : Value) (n : nat),
    List.filter outbound tr
    = firstn n
        [ EvGetUser (userId user);
          EvFetch (TOKEN_ENDPOINT config) (_getToken_options host config);
          EvFetch (_createMember_url host workspaceId)
                  (_createMember_options host token (userId user)
                                         (User.email user));
          EvUpdateAppMetadata (userId user) newAppMetadata ]
    /\ tr = (List.filter outbound tr ++ List.filter is_callback tr)%list
    /\ length (List.filter is_callback tr) <= 2.
Proof.
  intros tr config. subst tr config.
  destruct (trace_shapes host user context cb w) as (token & ws & e & Hsh).
  cbv zeta in Hsh. exists token, ws. simpl in Hsh.
  repeat (destruct Hsh as [Hsh|Hsh]); try contradiction; rewrite <- Hsh;
    [ exists 0%nat | exists 1%nat | exists 1%nat | exists 2%nat | exists 3%nat
    | exists 4%nat | exists 4%nat | exists 4%nat ];
    simpl; repeat split; lia.
Qed.

(** X4.  Every HTTP request of every run is a [POST] carrying the header
    [content-type: application/json], and goes either to the configured
    token endpoint or to a members URL of the workspace API, built from a
    [workspaceId] whose conversion to a string completed. *)
Theorem X4_requests_are_json_posts
    {W : Type} (host : Host W) (user : User.t) (context : Context)
    (cb : Callback W) (w : W) (url : string) (init : RequestInit) :
  In (EvFetch url init) (trace_of (run_hook host user context cb w)) ->
  method init = "POST"
  /\ In ("content-type", "application/json") (headers init)
  /\ (url = TOKEN_ENDPOINT (secrets (webtask context))
      \/ exists workspaceId wsText,
           ToString (Number_toString host) workspaceId = Normal wsText
           /\ url = "https://api.upstand.fm/workspaces/"
                    +:+ wsText +:+ "/members").
Proof.
  unfold_hook. simpl.
  repeat case_next; simpl; intros Hin;
    repeat (destruct Hin as [Hin|Hin]); try contradiction;
    try discriminate Hin; inversion Hin; subst; clear Hin;
    (split; [reflexivity|]; split;
     [unfold _getToken_options, _createMember_options; simpl; auto|]);
    first
      [ left; reflexivity
      | match goal with
        | H : ToString _ ?ws = Normal ?t
          |- _ \/ (exists _ _, _ /\ _createMember_url _ ?ws = _) =>
            right; exists ws, t; split;
            [exact H | apply _createMember_url_text; exact H]
        end ].
Qed.

Lemma X4_witness :
  method (_createMember_options (Demo.host Demo.happy) (Str "tok")
                                "auth0|abc123" "jane@example.com") = "POST".
Proof.
  refine (proj1
    (X4_requests_are_json_posts (Demo.host Demo.happy) Demo.user Demo.context
       Demo.cb 0%nat "https://api.upstand.fm/workspaces/ws1/members"
       (_createMember_options (Demo.host Demo.happy) (Str "tok")
                              "auth0|abc123" "jane@example.com") _)).
  simpl. tauto.
Defined.

(** ** Answers the code does not check *)

(** An invited user: the run continues with the provisioning steps on the
    fetched metadata. *)
Lemma hook_invited {W : Type} (host : Host W) (user : User.t)
    (context : Context) (cb : Callback W) (w0 w1 w2 : W)
    (c : ManagementClient) (fetched : Value) :
  new_ManagementClient host
    (managementClient_options (secrets (webtask context))) w0
    = (Normal c, w1) ->
  getUser host c (userId user) w1 = (Normal fetched, w2) ->
  Get (Get fetched "app_metadata") "isUserInvite" = Bool true ->
  run_hook host user context cb w0
  = try_catch (provision host user context cb c (Get fetched "app_metadata"))
              (fun err => invoke cb (Some err))
              (w2, [EvGetUser (userId user)]).
Proof.
  intros Hc Hu Hflag.
  destruct (flag_present fetched (Bool true) Hflag ltac:(discriminate))
    as (Hnf & Hmd & Hnm).
  rewrite <- Hmd.
  apply (hook_provision host user context cb w0 c w1 fetched w2 Hc Hu Hnf Hnm).
  rewrite Hmd, Hflag. reflexivity.
Qed.

(** X5.  [cb()] is called inside the [try] block, so when it throws the
    [catch] block calls [cb] a second time, with what the first call threw:
    after a fully successful provisioning the callback is then invoked
    twice, [cb()] followed by [cb(err)]. *)
Theorem X5_throwing_cb_is_called_twice
    {W : Type} (host : Host W) (user : User.t) (context : Context)
    (cb : Callback W) (w0 w5 : W) (c : ManagementClient)
    (md flag token created updated : Value) (st1 st2 st3 st4 : W * list Event)
    (e : Thrown) :
  let r := run_hook host user context cb w0 in
  read_metadata host user context (w0, []) = (Normal (c, md, flag), st1) ->
  ToBoolean flag = true ->
  _getToken host (secrets (webtask context)) st1 = (Normal token, st2) ->
  _createMember host token (Get md "workspaceId") (userId user)
                (User.email user) st2 = (Normal created, st3) ->
  replace_metadata host c user st3 = (Normal updated, st4) ->
  cb None (fst st4) = (Throw e, w5) ->
  r = invoke cb (Some e) (w5, (snd st4 ++ [EvCb None])%list)
  /\ List.filter is_callback (trace_of r) = [EvCb None; EvCb (Some e)].
Proof.
  intros r Hread Hflag Htok Hmem Hupd Hcb.
  pose proof (read_metadata_normal_trace host _ _ _ _ _ Hread) as H1.
  pose proof (_getToken_trace host (secrets (webtask context)) st1) as H2.
  pose proof (_createMember_normal_trace host _ _ _ _ _ _ _ Hmem) as H3.
  pose proof (replace_metadata_trace host c user st3) as H4.
  rewrite Htok in H2. rewrite Hupd in H4.
  unfold trace_of in H2, H4. simpl in H1, H2, H3, H4.
  assert (Hrun : r = invoke cb (Some e) (w5, (snd st4 ++ [EvCb None])%list)).
  { unfold r. rewrite run_hook_steps, Hread, Hflag. simpl.
    unfold try_catch, provision.
    rewrite (bind_normal _ _ _ _ _ Htok), (bind_normal _ _ _ _ _ Hmem),
      (bind_normal _ _ _ _ _ Hupd).
    destruct st4 as [w4 tr4]. simpl in Hcb.
    unfold invoke at 1. unfold perform at 1. unfold mbind, M_bind, bind.
    simpl. rewrite Hcb. reflexivity. }
  split; [exact Hrun|].
  rewrite Hrun, invoke_trace. simpl. rewrite H4, H3, H2, H1. reflexivity.
Qed.

Lemma X5_witness :
  List.filter is_callback
    (trace_of (run_hook (Demo.host Demo.happy) Demo.user Demo.context
                        Faults.cb_rejecting_success 0%nat))
  = [EvCb None; EvCb (Some (Error "callback failed"))].
Proof.
  refine (proj2
    (X5_throwing_cb_is_called_twice (Demo.host Demo.happy) Demo.user
       Demo.context Faults.cb_rejecting_success 0%nat 6%nat Demo.client
       (Demo.invite (Bool true)) (Bool true) (Str "tok") Demo.created_member
       (Obj [])
       (2%nat, [EvGetUser "auth0|abc123"])
       (3%nat, [EvGetUser "auth0|abc123";
                EvFetch "https://upstandfm.eu.auth0.com/oauth/token"
                  (_getToken_options (Demo.host Demo.happy) Demo.config)])
       (4%nat, [EvGetUser "auth0|abc123";
                EvFetch "https://upstandfm.eu.auth0.com/oauth/token"
                  (_getToken_options (Demo.host Demo.happy) Demo.config);
                EvFetch "https://api.upstand.fm/workspaces/ws1/members"
                  (_createMember_options (Demo.host Demo.happy) (Str "tok")
                     "auth0|abc123" "jane@example.com")])
       (5%nat, [EvGetUser "auth0|abc123";
                EvFetch "https://upstandfm.eu.auth0.com/oauth/token"
                  (_getToken_options (Demo.host Demo.happy) Demo.config);
                EvFetch "https://api.upstand.fm/workspaces/ws1/members"
                  (_createMember_options (Demo.host Demo.happy) (Str "tok")
                     "auth0|abc123" "jane@example.com");
                EvUpdateAppMetadata "auth0|abc123" newAppMetadata])
       (Error "callback failed")
       eq_refl eq_refl eq_refl eq_refl eq_refl eq_refl)).
Defined.

(** X6.  The default of line 133 replaces a missing [app_metadata] only.
    When [getUser] resolves with [null] or [undefined], or with a record
    whose [app_metadata] is [null], the hook throws a [TypeError] right
    after the read and reports it: the run is the read followed by
    [cb(TypeError)], with no request sent. *)
Theorem X6_null_metadata_is_a_type_error
    {W : Type} (host : Host W) (user : User.t) (context : Context)
    (cb : Callback W) (w0 w1 w2 : W) (c : ManagementClient) (fetched : Value) :
  let r := run_hook host user context cb w0 in
  new_ManagementClient host
    (managementClient_options (secrets (webtask context))) w0
    = (Normal c, w1) ->
  getUser host c (userId user) w1 = (Normal fetched, w2) ->
  nullish fetched = true \/ Get fetched "app_metadata" = Null ->
  r = invoke cb (Some TypeError) (w2, [EvGetUser (userId user)])
  /\ trace_of r = [EvGetUser (userId user); EvCb (Some TypeError)].
Proof.
  intros r Hc Hu Hnull.
  assert (Hread : read_metadata host user context (w0, [])
                  = (Throw TypeError, (w2, [EvGetUser (userId user)]))).
  { unfold_hook. simpl. rewrite Hc. simpl. rewrite Hu.
    destruct Hnull as [Hn | Hn].
    - rewrite Hn. reflexivity.
    - destruct (nullish fetched); [reflexivity|]. simpl. rewrite Hn.
      reflexivity. }
  assert (Hrun : r = invoke cb (Some TypeError)
                       (w2, [EvGetUser (userId user)])).
  { unfold r. rewrite run_hook_steps, Hread. reflexivity. }
  split; [exact Hrun|]. rewrite Hrun, invoke_trace. reflexivity.
Qed.

Lemma X6_witness :
  trace_of (Demo.run (Demo.with_user (Demo.record_with Null) Demo.happy))
  = [EvGetUser "auth0|abc123"; EvCb (Some TypeError)].
Proof.
  refine (proj2
    (X6_null_metadata_is_a_type_error
       (Demo.host (Demo.with_user (Demo.record_with Null) Demo.happy))
       Demo.user Demo.context Demo.cb 0%nat 1%nat 2%nat Demo.client
       (Demo.record_with Null) eq_refl eq_refl _)).
  right. reflexivity.
Defined.

(** X7.  [_getToken] does not check that the token response has an
    [access_token].  When the endpoint answers 2xx with a JSON object that
    lacks the property, the token is [undefined] and, the [workspaceId]
    converting to a string, the member request is still sent, with the
    header [Authorization: Bearer undefined]. *)
Theorem X7_missing_access_token_is_sent_as_undefined
    {W : Type} (host : Host W) (user : User.t) (context : Context)
    (cb : Callback W) (w0 w1 w2 w3 : W) (c : ManagementClient)
    (fetched tokenBody : Value) (tokenRes : Response) (wsText : string) :
  let config := secrets (webtask context) in
  let md := Get fetched "app_metadata" in
  new_ManagementClient host (managementClient_options config) w0
    = (Normal c, w1) ->
  getUser host c (userId user) w1 = (Normal fetched, w2) ->
  Get md "isUserInvite" = Bool true ->
  ToString (Number_toString host) (Get md "workspaceId") = Normal wsText ->
  fetch host (TOKEN_ENDPOINT config) (_getToken_options host config) w2
    = (Normal tokenRes, w3) ->
  ok tokenRes = true ->
  json tokenRes = Normal tokenBody ->
  nullish tokenBody = false ->
  Get tokenBody "access_token" = Undefined ->
  _getToken host config (w2, [EvGetUser (userId user)])
  = (Normal Undefined,
     (w3, [EvGetUser (userId user);
           EvFetch (TOKEN_ENDPOINT config) (_getToken_options host config)]))
  /\ exists rest,
       trace_of (run_hook host user context cb w0)
       = EvGetUser (userId user)
         :: EvFetch (TOKEN_ENDPOINT config) (_getToken_options host config)
         :: EvFetch ("https://api.upstand.fm/workspaces/"
                     +:+ wsText +:+ "/members")
              {| method := "POST";
                 headers := [("content-type", "application/json");
                             ("Authorization", "Bearer undefined")];
                 body := JSON_stringify host (Obj [
                   ("userId", Str (userId user));
                   ("email", Str (User.email user));
                   ("fullName", Str "User")]) |}
         :: rest.
Proof.
  intros config md Hc Hu Hflag Hws Ht Hok Hj Hn Hmiss.
  pose proof (_getToken_normal host config w2 [EvGetUser (userId user)]
                tokenRes w3 tokenBody Ht Hok Hj Hn) as Htok.
  rewrite Hmiss in Htok. split; [exact Htok|].
  rewrite (hook_invited host user context cb w0 w1 w2 c fetched Hc Hu Hflag).
  fold md. unfold try_catch, provision.
  rewrite (bind_normal _ _ _ _ _ Htok).
  unfold _createMember, replace_metadata, invoke, trace_of. unfold_monad.
  simpl. rewrite Hws. simpl. rewrite (_createMember_url_text host _ _ Hws).
  repeat case_next; eexists; reflexivity.
Qed.

Lemma X7_witness :
  _getToken
    (Demo.host (Demo.with_token
                  (Demo.response 200 (Obj [("token_type", Str "Bearer")]))
                  Demo.happy))
    Demo.config (2%nat, [EvGetUser "auth0|abc123"])
  = (Normal Undefined,
     (3%nat, [EvGetUser "auth0|abc123";
              EvFetch "https://upstandfm.eu.auth0.com/oauth/token"
                (_getToken_options (Demo.host Demo.happy) Demo.config)])).
Proof.
  exact (proj1
    (X7_missing_access_token_is_sent_as_undefined
       (Demo.host (Demo.with_token
                     (Demo.response 200 (Obj [("token_type", Str "Bearer")]))
                     Demo.happy))
       Demo.user Demo.context Demo.cb 0%nat 1%nat 2%nat 3%nat Demo.client
       (Demo.record_with (Demo.invite (Bool true)))
       (Obj [("token_type", Str "Bearer")])
       (Demo.response 200 (Obj [("token_type", Str "Bearer")])) "ws1"
       eq_refl eq_refl eq_refl eq_refl eq_refl eq_refl eq_refl eq_refl
       eq_refl)).
Defined.

(** X8.  The workspace identifier is not checked either.  When the metadata
    of an invited user has no [workspaceId] and the token converts to a
    string, the member request goes to
    [https://api.upstand.fm/workspaces/undefined/members]. *)
Theorem X8_missing_workspaceId_is_sent_as_undefined
    {W : Type} (host : Host W) (user : User.t) (context : Context)
    (cb : Callback W) (w0 w1 w2 w3 : W) (c : ManagementClient)
    (fetched tokenBody : Value) (tokenRes : Response) (tokenText : string) :
  let config := secrets (webtask context) in
  let md := Get fetched "app_metadata" in
  new_ManagementClient host (managementClient_options config) w0
    = (Normal c, w1) ->
  getUser host c (userId user) w1 = (Normal fetched, w2) ->
  Get md "isUserInvite" = Bool true ->
  Get md "workspaceId" = Undefined ->
  fetch host (TOKEN_ENDPOINT config) (_getToken_options host config) w2
    = (Normal tokenRes, w3) ->
  ok tokenRes = true ->
  json tokenRes = Normal tokenBody ->
  nullish tokenBody = false ->
  ToString (Number_toString host) (Get tokenBody "access_token")
    = Normal tokenText ->
  exists rest,
    trace_of (run_hook host user context cb w0)
    = EvGetUser (userId user)
      :: EvFetch (TOKEN_ENDPOINT config) (_getToken_options host config)
      :: EvFetch "https://api.upstand.fm/workspaces/undefined/members"
           (_createMember_options host (Get tokenBody "access_token")
                                  (userId user) (User.email user))
      :: rest.
Proof.
  intros config md Hc Hu Hflag Hws Ht Hok Hj Hn Htk.
  pose proof (_getToken_normal host config w2 [EvGetUser (userId user)]
                tokenRes w3 tokenBody Ht Hok Hj Hn) as Htok.
  rewrite (hook_invited host user context cb w0 w1 w2 c fetched Hc Hu Hflag).
  fold md. unfold try_catch, provision.
  rewrite (bind_normal _ _ _ _ _ Htok). rewrite Hws.
  unfold _createMember, replace_metadata, invoke, trace_of. unfold_monad.
  simpl. rewrite Htk. simpl. repeat case_next; eexists; reflexivity.
Qed.

Lemma X8_witness :
  exists rest,
    trace_of (Demo.run (Demo.with_user
                (Demo.record_with (Obj [("isUserInvite", Bool true)]))
                Demo.happy))
    = EvGetUser "auth0|abc123"
      :: EvFetch "https://upstandfm.eu.auth0.com/oauth/token"
           (_getToken_options (Demo.host Demo.happy) Demo.config)
      :: EvFetch "https://api.upstand.fm/workspaces/undefined/members"
           (_createMember_options (Demo.host Demo.happy) (Str "tok")
                                  "auth0|abc123" "jane@example.com")
      :: rest.
Proof.
  exact (X8_missing_workspaceId_is_sent_as_undefined
           (Demo.host (Demo.with_user
                         (Demo.record_with (Obj [("isUserInvite", Bool true)]))
                         Demo.happy))
           Demo.user Demo.context Demo.cb 0%nat 1%nat 2%nat 3%nat Demo.client
           (Demo.record_with (Obj [("isUserInvite", Bool true)]))
           Demo.token_body (Demo.response 200 Demo.token_body) "tok"
           eq_refl eq_refl eq_refl eq_refl eq_refl eq_refl eq_refl eq_refl
           eq_refl).
Defined.

(** X9.  A 2xx answer of the token endpoint is not enough for a token.
    When its body cannot be parsed, or parses to [null], [_getToken] throws
    (the rejection of [res.json()], or a [TypeError] from the
    destructuring), no member request is sent, and the error goes to
    [cb]. *)
Theorem X9_token_body_must_destructure
    {W : Type} (host : Host W) (user : User.t) (context : Context)
    (cb : Callback W) (w0 w1 w2 w3 : W) (c : ManagementClient)
    (fetched : Value) (tokenRes : Response) (e : Thrown) :
  let config := secrets (webtask context) in
  let tokenCall :=
    EvFetch (TOKEN_ENDPOINT config) (_getToken_options host config) in
  new_ManagementClient host (managementClient_options config) w0
    = (Normal c, w1) ->
  getUser host c (userId user) w1 = (Normal fetched, w2) ->
  Get (Get fetched "app_metadata") "isUserInvite" = Bool true ->
  fetch host (TOKEN_ENDPOINT config) (_getToken_options host config) w2
    = (Normal tokenRes, w3) ->
  ok tokenRes = true ->
  json tokenRes = Throw e
  \/ (exists v, json tokenRes = Normal v /\ nullish v = true /\ e = TypeError) ->
  _getToken host config (w2, [EvGetUser (userId user)])
  = (Throw e, (w3, [EvGetUser (userId user); tokenCall]))
  /\ trace_of (run_hook host user context cb w0)
     = [EvGetUser (userId user); tokenCall; EvCb (Some e)].
Proof.
  intros config tokenCall Hc Hu Hflag Ht Hok Hbody.
  assert (Htok : _getToken host config (w2, [EvGetUser (userId user)])
                 = (Throw e, (w3, [EvGetUser (userId user); tokenCall]))).
  { unfold _getToken. unfold_monad. simpl. rewrite Ht. simpl. rewrite Hok.
    simpl. destruct Hbody as [Hj | (v & Hj & Hv & ->)]; rewrite Hj; simpl;
      [reflexivity|]. rewrite Hv. reflexivity. }
  split; [exact Htok|].
  rewrite (hook_invited host user context cb w0 w1 w2 c fetched Hc Hu Hflag).
  unfold try_catch, provision. rewrite (bind_throw _ _ _ _ _ Htok).
  rewrite invoke_trace. reflexivity.
Qed.

Lemma X9_witness :
  trace_of (Demo.run (Demo.with_token (Demo.response 200 Null) Demo.happy))
  = [ EvGetUser "auth0|abc123";
      EvFetch "https://upstandfm.eu.auth0.com/oauth/token"
        (_getToken_options (Demo.host Demo.happy) Demo.config);
      EvCb (Some TypeError) ].
Proof.
  refine (proj2
    (X9_token_body_must_destructure
       (Demo.host (Demo.with_token (Demo.response 200 Null) Demo.happy))
       Demo.user Demo.context Demo.cb 0%nat 1%nat 2%nat 3%nat Demo.client
       (Demo.record_with (Demo.invite (Bool true)))
       (Demo.response 200 Null) TypeError
       eq_refl eq_refl eq_refl eq_refl eq_refl _)).
  right. exists Null. repeat split.
Defined.

(** X10.  [_createMember] reads the body of a 2xx answer and the hook
    awaits it.  When the [workspaceId] and the token convert to strings and
    the member endpoint answers 2xx with a body that cannot be parsed, the hook reports the rejection to [cb] and skips the metadata
    update, so the stored flag is left as it was although the endpoint
    accepted the request. *)
Theorem X10_unparsable_member_body_skips_update
    {W : Type} (host : Host W) (user : User.t) (context : Context)
    (cb : Callback W) (w0 w1 w2 w3 w4 : W) (c : ManagementClient)
    (fetched tokenBody : Value) (tokenRes memberRes : Response) (e : Thrown)
    (wsText tokenText : string) :
  let config := secrets (webtask context) in
  let md := Get fetched "app_metadata" in
  let tokenCall :=
    EvFetch (TOKEN_ENDPOINT config) (_getToken_options host config) in
  let memberCall :=
    EvFetch (_createMember_url host (Get md "workspaceId"))
            (_createMember_options host (Get tokenBody "access_token")
                                   (userId user) (User.email user)) in
  let tr := trace_of (run_hook host user context cb w0) in
  new_ManagementClient host (managementClient_options config) w0
    = (Normal c, w1) ->
  getUser host c (userId user) w1 = (Normal fetched, w2) ->
  Get md "isUserInvite" = Bool true ->
  ToString (Number_toString host) (Get md "workspaceId") = Normal wsText ->
  fetch host (TOKEN_ENDPOINT config) (_getToken_options host config) w2
    = (Normal tokenRes, w3) ->
  ok tokenRes = true ->
  json tokenRes = Normal tokenBody ->
  nullish tokenBody = false ->
  ToString (Number_toString host) (Get tokenBody "access_token")
    = Normal tokenText ->
  fetch host (_createMember_url host (Get md "workspaceId"))
        (_createMember_options host (Get tokenBody "access_token")
                               (userId user) (User.email user)) w3
    = (Normal memberRes, w4) ->
  ok memberRes = true ->
  json memberRes = Throw e ->
  tr = [EvGetUser (userId user); tokenCall; memberCall; EvCb (Some e)]
  /\ existsb is_update tr = false
  /\ (forall patch s, store_after patch s tr = s).
Proof.
  intros config md tokenCall memberCall tr
    Hc Hu Hflag Hws Ht Hok Hj Hn Htk Hm Hok' Hj'.
  assert (Hmem : _createMember host (Get tokenBody "access_token")
                   (Get md "workspaceId") (userId user) (User.email user)
                   (w3, [EvGetUser (userId user); tokenCall])
                 = (Throw e, (w4, [EvGetUser (userId user); tokenCall;
                                   memberCall]))).
  { unfold _createMember. unfold_monad. simpl. rewrite Hws, Htk, Hm. simpl.
    rewrite Hok'. simpl. rewrite Hj'. reflexivity. }
  assert (Htr : tr = [EvGetUser (userId user); tokenCall; memberCall;
                      EvCb (Some e)]).
  { unfold tr.
    rewrite (hook_invited host user context cb w0 w1 w2 c fetched Hc Hu Hflag).
    fold md. unfold try_catch, provision.
    rewrite (bind_normal _ _ _ _ _
               (_getToken_normal host config w2 _ _ _ _ Ht Hok Hj Hn)).
    simpl. rewrite (bind_throw _ _ _ _ _ Hmem).
    rewrite invoke_trace. reflexivity. }
  assert (Hno : existsb is_update tr = false) by (rewrite Htr; reflexivity).
  split; [exact Htr|]. split; [exact Hno|].
  intros patch s. apply store_after_no_update, Hno.
Qed.

Lemma X10_witness :
  trace_of (Demo.run (Demo.with_member (Faults.unparsable 201) Demo.happy))
  = [ EvGetUser "auth0|abc123";
      EvFetch "https://upstandfm.eu.auth0.com/oauth/token"
        (_getToken_options (Demo.host Demo.happy) Demo.config);
      EvFetch "https://api.upstand.fm/workspaces/ws1/members"
        (_createMember_options (Demo.host Demo.happy) (Str "tok")
                               "auth0|abc123" "jane@example.com");
      EvCb (Some (Error "invalid json response body")) ].
Proof.
  exact (proj1
    (X10_unparsable_member_body_skips_update
       (Demo.host (Demo.with_member (Faults.unparsable 201) Demo.happy))
       Demo.user Demo.context Demo.cb 0%nat 1%nat 2%nat 3%nat 4%nat Demo.client
       (Demo.record_with (Demo.invite (Bool true))) Demo.token_body
       (Demo.response 200 Demo.token_body) (Faults.unparsable 201)
       (Error "invalid json response body") "ws1" "tok"
       eq_refl eq_refl eq_refl eq_refl eq_refl eq_refl eq_refl eq_refl
       eq_refl eq_refl eq_refl eq_refl)).
Defined.

(** X11.  When [new auth0.ManagementClient] throws, the hook makes no
    outbound call at all: the run is the single invocation [cb(err)]. *)
Theorem X11_no_client_no_calls
    {W : Type} (host : Host W) (user : User.t) (context : Context)
    (cb : Callback W) (w0 w1 : W) (e : Thrown) :
  let r := run_hook host user context cb w0 in
  new_ManagementClient host
    (managementClient_options (secrets (webtask context))) w0
    = (Throw e, w1) ->
  r = invoke cb (Some e) (w1, [])
  /\ trace_of r = [EvCb (Some e)]
  /\ existsb outbound (trace_of r) = false.
Proof.
  intros r Hc.
  assert (Hrun : r = invoke cb (Some e) (w1, [])).
  { unfold r. unfold_hook. simpl. rewrite Hc. reflexivity. }
  assert (Htr : trace_of r = [EvCb (Some e)])
    by (rewrite Hrun, invoke_trace; reflexivity).
  split; [exact Hrun|]. split; [exact Htr|]. rewrite Htr. reflexivity.
Qed.

Lemma X11_witness :
  trace_of (run_hook (Faults.host_without_client Demo.happy) Demo.user
                     Demo.context Demo.cb 0%nat)
  = [EvCb (Some (Error "Must provide a domain"))].
Proof.
  exact (proj1 (proj2
    (X11_no_client_no_calls (Faults.host_without_client Demo.happy) Demo.user
       Demo.context Demo.cb 0%nat 1%nat (Error "Must provide a domain")
       eq_refl))).
Defined.

(** ** One invocation after another *)

(** X12.  What the hook writes switches the hook off.  If the provider
    keeps the [isUserInvite] it is sent, then once a run has made its
    metadata update, an invocation that reads the stored metadata back takes
    the early return: it makes the read and nothing else. *)
Theorem X12_update_makes_next_run_a_noop
    {W : Type} (host host' : Host W) (user : User.t) (context : Context)
    (cb : Callback W) (w w0 w1 w2 : W) (c : ManagementClient)
    (patch : Value -> Value -> Value) (s : gmap string Value)
    (id : string) (md stored fetched : Value) :
  let tr := trace_of (run_hook host user context cb w) in
  (forall old, Get (patch old newAppMetadata) "isUserInvite"
               = Get newAppMetadata "isUserInvite") ->
  In (EvUpdateAppMetadata id md) tr ->
  store_after patch s tr !! userId user = Some stored ->
  new_ManagementClient host'
    (managementClient_options (secrets (webtask context))) w0
    = (Normal c, w1) ->
  getUser host' c (userId user) w1 = (Normal fetched, w2) ->
  Get fetched "app_metadata" = stored ->
  run_hook host' user context cb w0
  = (Normal tt, (w2, [EvGetUser (userId user)])).
Proof.
  intros tr Hpatch Hin Hstored Hc Hu Hmd.
  destruct (update_in_trace host user context cb w id md Hin) as [-> ->].
  pose proof (store_after_update host user context cb w patch s
                (userId user) newAppMetadata Hin) as Hst.
  fold tr in Hst. rewrite Hstored in Hst. injection Hst as Hst.
  assert (Hflag : Get stored "isUserInvite" = Bool false).
  { rewrite Hst, Hpatch. reflexivity. }
  assert (Hfetched : nullish fetched = false).
  { destruct fetched; simpl in Hmd; subst stored; try discriminate Hflag.
    reflexivity. }
  assert (Hmeta : app_metadata_of fetched = stored).
  { unfold app_metadata_of. rewrite Hmd.
    destruct stored; try reflexivity. discriminate Hflag. }
  apply (hook_noop host' user context cb w0 c w1 fetched w2 Hc Hu Hfetched);
    rewrite Hmeta; [|rewrite Hflag; reflexivity].
  destruct stored; try reflexivity; discriminate Hflag.
Qed.

Lemma X12_witness :
  Demo.run (Demo.with_user (Demo.record_with newAppMetadata) Demo.happy)
  = (Normal tt, (2%nat, [EvGetUser "auth0|abc123"])).
Proof.
  refine (X12_update_makes_next_run_a_noop
            (Demo.host Demo.happy)
            (Demo.host (Demo.with_user (Demo.record_with newAppMetadata)
                                       Demo.happy))
            Demo.user Demo.context Demo.cb 0%nat 0%nat 1%nat 2%nat Demo.client
            patch_replace ∅ "auth0|abc123" newAppMetadata newAppMetadata
            (Demo.record_with newAppMetadata)
            (fun _ => eq_refl) _ _ eq_refl eq_refl eq_refl).
  - simpl. tauto.
  - apply (store_after_update (Demo.host Demo.happy) Demo.user Demo.context
             Demo.cb 0%nat patch_replace ∅ "auth0|abc123" newAppMetadata).
    simpl. tauto.
Defined.

(** X13.  The template literals of lines 65 and 70 convert [workspaceId]
    and the token to strings before anything is sent.  When the token was
    obtained and one of the two conversions throws (an object with an own
    [toString] property does), [_createMember] throws before the request:
    the run is the read, the token request and [cb(err)], with no member
    request and no metadata update. *)
Theorem X13_unconvertible_value_stops_member_request
    {W : Type} (host : Host W) (user : User.t) (context : Context)
    (cb : Callback W) (w0 w1 w2 w3 : W) (c : ManagementClient)
    (fetched tokenBody : Value) (tokenRes : Response) (e : Thrown) :
  let config := secrets (webtask context) in
  let md := Get fetched "app_metadata" in
  let tokenCall :=
    EvFetch (TOKEN_ENDPOINT config) (_getToken_options host config) in
  let tr := trace_of (run_hook host user context cb w0) in
  new_ManagementClient host (managementClient_options config) w0
    = (Normal c, w1) ->
  getUser host c (userId user) w1 = (Normal fetched, w2) ->
  Get md "isUserInvite" = Bool true ->
  fetch host (TOKEN_ENDPOINT config) (_getToken_options host config) w2
    = (Normal tokenRes, w3) ->
  ok tokenRes = true ->
  json tokenRes = Normal tokenBody ->
  nullish tokenBody = false ->
  ToString (Number_toString host) (Get md "workspaceId") = Throw e
  \/ ((exists wsText,
         ToString (Number_toString host) (Get md "workspaceId")
         = Normal wsText)
      /\ ToString (Number_toString host) (Get tokenBody "access_token")
         = Throw e) ->
  tr = [EvGetUser (userId user); tokenCall; EvCb (Some e)]
  /\ existsb is_update tr = false
  /\ (forall props,
        has_own "toString" props = true ->
        ToString (Number_toString host) (Obj props) = Throw TypeError).
Proof.
  intros config md tokenCall tr Hc Hu Hflag Ht Hok Hj Hn Hconv.
  assert (Htr : tr = [EvGetUser (userId user); tokenCall; EvCb (Some e)]).
  { unfold tr.
    rewrite (hook_invited host user context cb w0 w1 w2 c fetched Hc Hu Hflag).
    fold md. unfold try_catch, provision.
    rewrite (bind_normal _ _ _ _ _
               (_getToken_normal host config w2 _ _ _ _ Ht Hok Hj Hn)).
    rewrite (bind_throw _ _ _ _ _
               (_createMember_unconvertible host _ _ (userId user)
                  (User.email user) _ e Hconv)).
    rewrite invoke_trace. reflexivity. }
  split; [exact Htr|]. split; [rewrite Htr; reflexivity|].
  intros props Hown. simpl. rewrite Hown. reflexivity.
Qed.

Lemma X13_witness :
  trace_of (Demo.run (Demo.with_user
              (Demo.record_with
                 (Obj [("isUserInvite", Bool true);
                       ("workspaceId", Obj [("toString", Num PrimFloat.one)])]))
              Demo.happy))
  = [ EvGetUser "auth0|abc123";
      EvFetch "https://upstandfm.eu.auth0.com/oauth/token"
        (_getToken_options (Demo.host Demo.happy) Demo.config);
      EvCb (Some TypeError) ].
Proof.
  refine (proj1
    (X13_unconvertible_value_stops_member_request
       (Demo.host (Demo.with_user
          (Demo.record_with
             (Obj [("isUserInvite", Bool true);
                   ("workspaceId", Obj [("toString", Num PrimFloat.one)])]))
          Demo.happy))
       Demo.user Demo.context Demo.cb 0%nat 1%nat 2%nat 3%nat Demo.client
       (Demo.record_with
          (Obj [("isUserInvite", Bool true);
                ("workspaceId", Obj [("toString", Num PrimFloat.one)])]))
       Demo.token_body (Demo.response 200 Demo.token_body) TypeError
       eq_refl eq_refl eq_refl eq_refl eq_refl eq_refl eq_refl _)).
  left. reflexivity.
Defined.
